(** * Controllers/chatController.js: the two request handlers

    A shallow embedding of [questionAnswer] and [uploadDoc].  Both handlers
    are straight-line asynchronous code that talks to a logger, to the local
    file system and to third-party clients (Pinecone, LangChain, Google
    Generative AI).  They are modelled in a small monad that threads a
    [World] (the files on disk and the chronological trace of every effect)
    and has the three ways a JavaScript statement can complete: normally,
    by [return], or by [throw].  What the third-party packages answer, and
    whether the disk takes a write, is a parameter ([Collaborators]); the
    statements below hold for every behaviour of the packages and of the
    disk unless they say otherwise.

    Layout: the data and the handlers (section [Controller]), a concrete
    deployment (module [Scenario]), the properties of the two pipelines
    (section [Properties]), and the properties at work on the concrete
    deployment. *)

From Stdlib Require Import Strings.Byte Strings.Ascii Strings.String.
From stdpp Require Import gmap strings list pretty.

Local Open Scope string_scope.
Local Open Scope list_scope.

(** ** JavaScript values that the handlers inspect *)

(** A line feed, as written [\n] in the source. *)
Definition nl : string := String "010"%char EmptyString.

(** [!s] and [s || d] on a string that may be [undefined]. *)
Definition truthy (s : string) : bool := negb (String.eqb s "").

Definition falsy (v : option string) : bool :=
  match v with
  | None => true
  | Some s => negb (truthy s)
  end.

Definition js_or {A} (s : string) (inj : string -> A) (d : A) : A :=
  if truthy s then inj s else d.

(** [Array.prototype.join]: [undefined] elements are rendered as the empty
    string. *)
Definition join (sep : string) (l : list (option string)) : string :=
  String.concat sep (map (default "") l).

Definition Buffer := list byte.

(** What [res.json] is given: an object with a few scalar properties. *)
Inductive JSValue :=
| VStr (s : string)
| VNum (n : nat).

Record Response := {
  status : nat;
  body : list (string * JSValue)
}.

Definition res_status_json (code : nat) (o : list (string * JSValue)) : Response :=
  {| status := code; body := o |}.

(** [res.json(o)] without [res.status]: Express answers 200. *)
Definition res_json (o : list (string * JSValue)) : Response :=
  res_status_json 200 o.

Fixpoint property (k : string) (o : list (string * JSValue)) : option JSValue :=
  match o with
  | [] => None
  | (k', v) :: o' => if String.eqb k k' then Some v else property k o'
  end.

(** ** Requests *)

(** [req.file] as multer's memory storage leaves it. *)
Record File := {
  mimetype : string;
  originalname : string;
  buffer : Buffer
}.

(** [req.body] after [express.json()]: an object whose [question] may be
    missing. *)
Record QuestionRequest := { question : option string }.

Record UploadRequest := { file : option File }.

(** [process.env]. *)
Record ProcessEnv := {
  PINECONE_API_KEY : option string;
  PINECONE_INDEX_NAME : option string;
  GEMINI_API_KEY : option string
}.

(** ** Handles of the third-party clients

    A handle records what the source passes when it builds the client. *)

Record Pinecone := { pinecone_apiKey : option string }.

Record GoogleGenerativeAI := { genAI_apiKey : option string }.

Record GoogleGenerativeAIEmbeddings := {
  embeddings_apiKey : option string;
  modelName : string
}.

(** [pinecone.Index(name)].  The handle addresses a namespace only once it
    has been narrowed with one; the source never does that, so
    [index_namespace] is [None] on every handle it builds. *)
Record PineconeIndex := {
  index_client : Pinecone;
  index_name : string;
  index_namespace : option string
}.

(** The [dbConfig] argument of [PineconeStore.fromExistingIndex] and
    [PineconeStore.fromDocuments]. *)
Record PineconeStoreConfig := {
  pineconeIndex : PineconeIndex;
  config_namespace : option string
}.

Record PineconeStore := {
  store_embeddings : GoogleGenerativeAIEmbeddings;
  store_config : PineconeStoreConfig
}.

Record GenerativeModel := {
  model_client : GoogleGenerativeAI;
  model : string
}.

Record RecursiveCharacterTextSplitter := {
  chunkSize : nat;
  chunkOverlap : nat
}.

(** A LangChain document, or any object read through [.pageContent]. *)
Record Doc := {
  pageContent : option string;
  metadata : option (gmap string string)
}.

Inductive Level := Info | Error.

Inductive LoaderKind := PDFLoader | DocxLoader.

(** How an awaited call into a package ends. *)
Inductive Result (A : Type) :=
| Resolved (a : A)
| Rejected (message : string).
Arguments Resolved {A} a.
Arguments Rejected {A} message.

(** How a statement of a handler completes. *)
Inductive Completion (A : Type) :=
| Normal (a : A)
| Return (r : Response)
| Throw (message : string).
Arguments Normal {A} a.
Arguments Return {A} r.
Arguments Throw {A} message.

(** The argument of [pineconeIndex.query]; [number] is the type of the
    components of an embedding vector. *)
Record QueryOptions {number : Type} := {
  vector : list number;
  topK : nat;
  includeMetadata : bool;
  includeValues : bool
}.
Arguments QueryOptions : clear implicits.

Record ScoredRecord {number : Type} := {
  match_id : string;
  match_values : list number;
  match_metadata : option (gmap string string)
}.
Arguments ScoredRecord : clear implicits.

Record QueryResponse {number : Type} := { matches : list (ScoredRecord number) }.
Arguments QueryResponse : clear implicits.

(** What the host gives and the handlers treat as opaque: the numbers of
    an embedding vector and the index statistics (vectors are passed on,
    statistics are only printed), [JSON.stringify] on the two objects that
    are logged, Node's [__dirname] and [path.join]. *)
Class Runtime := {
  number : Type;
  IndexStats : Type;
  JSON_stringify_stats : IndexStats -> string;
  JSON_stringify_query : QueryResponse number -> string;
  __dirname : string;
  path_join : string -> string -> string
}.

Section Controller.

Context {R : Runtime}.

(** ** Effects *)

(** Calls into the third-party packages. *)
Inductive Call :=
| NewEmbeddings (e : GoogleGenerativeAIEmbeddings)
| DescribeIndexStats (i : PineconeIndex)
| EmbedQuery (e : GoogleGenerativeAIEmbeddings) (text : string)
| SimilaritySearch (s : PineconeStore) (query : string) (k : nat)
| IndexQuery (i : PineconeIndex) (q : QueryOptions number)
| GenerateContent (m : GenerativeModel) (prompt : string)
| LoaderLoad (k : LoaderKind) (path : string)
| SplitDocuments (s : RecursiveCharacterTextSplitter) (docs : list Doc)
| FromDocuments (docs : list Doc) (e : GoogleGenerativeAIEmbeddings)
    (c : PineconeStoreConfig).

Inductive FsCall :=
| ExistsSync (path : string)
| MkdirSync (path : string)
| WriteFileSync (path : string) (data : Buffer)
| UnlinkSync (path : string).

Inductive Event :=
| Log (l : Level) (message : string) (meta : option string)
| ConsoleLog (r : QueryResponse number)
| ConsoleError (message : string)
| Fs (c : FsCall)
| Ext (c : Call).

(** The disk is a flat map from paths to contents plus the set of
    directories.  [files] are the files the handlers reach through [fs]; the
    file "chat.log" of the logger's File transport is not among them: what
    is appended to it is read off the [Log] events of the trace.  The trace
    is chronological. *)
Record World := {
  files : gmap string Buffer;
  dirs : gset string;
  trace : list Event
}.

Definition record (e : Event) (w : World) : World :=
  {| files := files w; dirs := dirs w; trace := trace w ++ [e] |}.

(** The behaviour of what lies outside the handlers: the third-party
    packages and the disk.  The two client constructors of lines 28-33 run
    when the module is loaded.  [writeFileSync_error] is the error, if any,
    with which the disk refuses to open the file of a write and so leaves
    it as it was (a name it does not accept, such as one over 255 bytes);
    [fs.writeFileSync] is the one [fs] call that is given a path chosen by
    the client.  Every call made by a handler may depend on
    the whole world at the time it is made. *)
Record Collaborators := {
  new_Pinecone : Pinecone -> Result unit;
  new_GoogleGenerativeAI : GoogleGenerativeAI -> Result unit;
  writeFileSync_error : World -> string -> Buffer -> option string;
  new_GoogleGenerativeAIEmbeddings :
    World -> GoogleGenerativeAIEmbeddings -> Result unit;
  describeIndexStats : World -> PineconeIndex -> Result IndexStats;
  embedQuery :
    World -> GoogleGenerativeAIEmbeddings -> string -> Result (list number);
  similaritySearch :
    World -> PineconeStore -> string -> nat -> Result (list Doc);
  query :
    World -> PineconeIndex -> QueryOptions number -> Result (QueryResponse number);
  generateContent : World -> GenerativeModel -> string -> Result string;
  load : World -> LoaderKind -> string -> Result (list Doc);
  splitDocuments :
    World -> RecursiveCharacterTextSplitter -> list Doc -> Result (list Doc);
  fromDocuments :
    World -> list Doc -> GoogleGenerativeAIEmbeddings ->
    PineconeStoreConfig -> Result unit
}.

(** ** The handler monad *)

Definition M (A : Type) : Type := World -> Completion A * World.

Definition ret {A} (a : A) : M A := fun w => (Normal a, w).

Definition bind {A B} (c : M A) (k : A -> M B) : M B :=
  fun w =>
    match c w with
    | (Normal a, w') => k a w'
    | (Return r, w') => (Return r, w')
    | (Throw e, w') => (Throw e, w')
    end.

Definition return_ {A} (r : Response) : M A := fun w => (Return r, w).

Definition throw {A} (message : string) : M A := fun w => (Throw message, w).

Notation "x <- c ;; k" := (bind c (fun x => k))
  (at level 100, c at next level, right associativity).
Notation "c ;; k" := (bind c (fun _ => k))
  (at level 100, right associativity).

(** The logger of lines 15-25 hands every entry, at level [info] and
    above, to its two transports: the console and the file "chat.log", to
    which the entry is appended through a stream of the transport's own.
    An entry is kept as a [Log] event; [chat_log] below reads off a trace
    what has been handed to the file. *)
Definition logger (l : Level) (message : string) (meta : option string) : M unit :=
  fun w => (Normal tt, record (Log l message meta) w).

Definition logger_info (message : string) : M unit := logger Info message None.

Definition console_log (r : QueryResponse number) : M unit :=
  fun w => (Normal tt, record (ConsoleLog r) w).

(** An awaited call: the package sees the world as it is, the call is
    recorded, and a rejection is thrown at the [await]. *)
Definition await {A} (c : Call) (behaviour : World -> Result A) : M A :=
  fun w =>
    match behaviour w with
    | Resolved a => (Normal a, record (Ext c) w)
    | Rejected e => (Throw e, record (Ext c) w)
    end.

(** *** [fs] *)

Definition on_disk (path : string) (w : World) : bool :=
  bool_decide (is_Some (files w !! path)) || bool_decide (path ∈ dirs w).

Definition fs_existsSync (path : string) : M bool :=
  fun w => (Normal (on_disk path w), record (Fs (ExistsSync path)) w).

Definition fs_mkdirSync (path : string) : M unit :=
  fun w =>
    (Normal tt,
     record (Fs (MkdirSync path))
       {| files := files w; dirs := {[ path ]} ∪ dirs w; trace := trace w |}).

Definition ENOENT (path : string) : string :=
  "ENOENT: no such file or directory, unlink '" +:+ path +:+ "'".

Definition fs_unlinkSync (path : string) : M unit :=
  fun w =>
    match files w !! path with
    | Some _ =>
        (Normal tt,
         record (Fs (UnlinkSync path))
           {| files := delete path (files w); dirs := dirs w; trace := trace w |})
    | None => (Throw (ENOENT path), record (Fs (UnlinkSync path)) w)
    end.

(** [Array.prototype.map] with a callback that may throw. *)
Fixpoint array_map {A B} (f : A -> M B) (l : list A) : M (list B) :=
  match l with
  | [] => ret []
  | a :: l' => b <- f a ;; bs <- array_map f l' ;; ret (b :: bs)
  end.

(** [try { body } catch (error) { handler }], where the handler answers the
    request. *)
Definition try_catch (body : M Response)
    (handler : string -> World -> Response * World) : World -> Response * World :=
  fun w =>
    match body w with
    | (Normal r, w') => (r, w')
    | (Return r, w') => (r, w')
    | (Throw e, w') => handler e w'
    end.

(** ** Module-level clients (lines 27-33) and handles

    The two clients are built once, when the module is loaded, from the API
    keys as [process.env] has them; the source does not look at the keys
    (whether the constructors accept them is [new_Pinecone] and
    [new_GoogleGenerativeAI], see [chatController]).  The definitions below
    are the handles, which only record their arguments. *)

Definition pinecone (env : ProcessEnv) : Pinecone :=
  {| pinecone_apiKey := PINECONE_API_KEY env |}.

Definition genAI (env : ProcessEnv) : GoogleGenerativeAI :=
  {| genAI_apiKey := GEMINI_API_KEY env |}.

Definition pinecone_Index (p : Pinecone) (name : string) : PineconeIndex :=
  {| index_client := p; index_name := name; index_namespace := None |}.

Definition fromExistingIndex (embeddings : GoogleGenerativeAIEmbeddings)
    (dbConfig : PineconeStoreConfig) : PineconeStore :=
  {| store_embeddings := embeddings; store_config := dbConfig |}.

Definition getGenerativeModel (g : GoogleGenerativeAI) (name : string) : GenerativeModel :=
  {| model_client := g; model := name |}.

Variable env : ProcessEnv.
Variable X : Collaborators.

(** [fs.writeFileSync]: when the disk refuses the write the call throws and
    the disk is as before. *)
Definition fs_writeFileSync (path : string) (data : Buffer) : M unit :=
  fun w =>
    match writeFileSync_error X w path data with
    | Some e => (Throw e, record (Fs (WriteFileSync path data)) w)
    | None =>
        (Normal tt,
         record (Fs (WriteFileSync path data))
           {| files := <[ path := data ]> (files w); dirs := dirs w;
              trace := trace w |})
    end.

(** [new GoogleGenerativeAIEmbeddings({ apiKey, modelName })]: the one
    constructor that is handed an API key inside a handler; it may throw. *)
Definition embeddings_fields : GoogleGenerativeAIEmbeddings :=
  {| embeddings_apiKey := GEMINI_API_KEY env;
     modelName := "models/embedding-001" |}.

Definition new_embeddings : M GoogleGenerativeAIEmbeddings :=
  await (NewEmbeddings embeddings_fields)
    (fun w => new_GoogleGenerativeAIEmbeddings X w embeddings_fields) ;;
  ret embeddings_fields.

Definition index_name_unset : string :=
  "PINECONE_INDEX_NAME is not set in environment variables".

(** ** [exports.questionAnswer] (lines 35-124) *)

Definition namespace : string := "euler-namespace".

Definition no_documents : string :=
  "Sorry, I couldn't find any relevant documents to answer your question.".

(** The template literal of lines 105-111. *)
Definition prompt_of (context question : string) : string :=
  nl +:+ "    Context: " +:+ context +:+ nl +:+ nl +:+
  "    Question: " +:+ question +:+ nl +:+ nl +:+
  "    Please provide a concise and accurate answer to the question based on the given context. If the context doesn't contain enough information to answer the question, please state that." +:+
  nl +:+ "    ".

(** [match.metadata.pageContent] (line 90): reading a property of
    [undefined] throws a [TypeError]. *)
Definition metadata_pageContent (m : ScoredRecord number) : M (option string) :=
  match match_metadata m with
  | Some md => ret (md !! "pageContent")
  | None => throw "Cannot read properties of undefined (reading 'pageContent')"
  end.

(** The callback of the [map] of lines 89-91. *)
Definition doc_of_match (m : ScoredRecord number) : M Doc :=
  text <- metadata_pageContent m ;;
  ret {| pageContent := text; metadata := None |}.

Definition questionAnswer_try (req : QuestionRequest) : M Response :=
  logger_info "Starting question answering process" ;;
  let question := question req in
  (if falsy question then
     logger Error "No question provided" None ;;
     return_ (res_status_json 400 [("error", VStr "No question provided")])
   else ret tt) ;;
  (* past the guard, [question] is a non-empty string *)
  let question := default "" question in
  logger_info ("Received question: " +:+ question) ;;
  logger_info ("Searching in namespace: " +:+ js_or namespace id "default") ;;
  embeddings <- new_embeddings ;;
  let indexName := PINECONE_INDEX_NAME env in
  (if falsy indexName then throw index_name_unset else ret tt) ;;
  (* past the guard, [indexName] is a non-empty string *)
  let pineconeIndex := pinecone_Index (pinecone env) (default "" indexName) in
  indexStats <- await (DescribeIndexStats pineconeIndex)
                  (fun w => describeIndexStats X w pineconeIndex) ;;
  logger_info ("Pinecone index stats: " +:+ JSON_stringify_stats indexStats) ;;
  let vectorStore :=
    fromExistingIndex embeddings
      {| pineconeIndex := pineconeIndex;
         config_namespace := js_or namespace Some None |} in
  questionEmbedding <- await (EmbedQuery embeddings question)
                         (fun w => embedQuery X w embeddings question) ;;
  logger_info ("Generated question embedding with length: " +:+
               pretty (length questionEmbedding)) ;;
  relevantDocs <- await (SimilaritySearch vectorStore question 3)
                    (fun w => similaritySearch X w vectorStore question 3) ;;
  logger_info ("Found " +:+ pretty (length relevantDocs) +:+ " relevant documents") ;;
  relevantDocs <-
    (if Nat.eqb (length relevantDocs) 0 then
       let options := {| vector := questionEmbedding; topK := 10;
                         includeMetadata := true; includeValues := true |} in
       queryResponse <- await (IndexQuery pineconeIndex options)
                          (fun w => query X w pineconeIndex options) ;;
       console_log queryResponse ;;
       logger_info ("Direct Pinecone query results: " +:+
                    JSON_stringify_query queryResponse) ;;
       array_map doc_of_match (matches queryResponse)
     else ret relevantDocs) ;;
  (if Nat.eqb (length relevantDocs) 0 then
     return_ (res_json [("answer", VStr no_documents)])
   else ret tt) ;;
  let context := join (nl +:+ nl) (map pageContent relevantDocs) in
  let model := getGenerativeModel (genAI env) "gemini-pro" in
  let prompt := prompt_of context question in
  answer <- await (GenerateContent model prompt)
              (fun w => generateContent X w model prompt) ;;
  logger_info "Answer generated successfully" ;;
  ret (res_json [("answer", VStr answer)]).

Definition questionAnswer (req : QuestionRequest) : World -> Response * World :=
  try_catch (questionAnswer_try req)
    (fun error w =>
       (res_status_json 500
          [("error", VStr "Error processing question"); ("details", VStr error)],
        record (ConsoleError error)
          (record (Log Error "Error processing question" (Some error)) w))).

(** ** [exports.uploadDoc] (lines 126-205) *)

Definition pdf : string := "application/pdf".

Definition docx : string :=
  "application/vnd.openxmlformats-officedocument.wordprocessingml.document".

Definition uploadsDir : string := path_join __dirname "../uploads".

Definition tempFilePath (file : File) : string :=
  path_join uploadsDir (originalname file).

Definition uploadDoc_try (req : UploadRequest) : M Response :=
  logger_info "Starting document upload process" ;;
  let file := file req in
  (if file is None then
     logger Error "No file uploaded" None ;;
     return_ (res_status_json 400 [("error", VStr "No file uploaded")])
   else ret tt) ;;
  (* past the guard, [file] is there *)
  let file := default {| mimetype := ""; originalname := ""; buffer := [] |} file in
  let fileType := mimetype file in
  logger_info ("File type: " +:+ fileType) ;;
  exists_ <- fs_existsSync uploadsDir ;;
  (if negb exists_ then fs_mkdirSync uploadsDir else ret tt) ;;
  let tempFilePath := tempFilePath file in
  fs_writeFileSync tempFilePath (buffer file) ;;
  rawDocs <-
    (if String.eqb fileType pdf then
       await (LoaderLoad PDFLoader tempFilePath)
         (fun w => load X w PDFLoader tempFilePath)
     else if String.eqb fileType docx then
       await (LoaderLoad DocxLoader tempFilePath)
         (fun w => load X w DocxLoader tempFilePath)
     else
       logger Error ("Invalid file type: " +:+ fileType) None ;;
       fs_unlinkSync tempFilePath ;;
       return_ (res_status_json 400
                  [("error", VStr "Invalid file type. Only PDF and DOCX are allowed.")])) ;;
  logger_info ("Processing file: " +:+ originalname file) ;;
  let textSplitter := {| chunkSize := 1000; chunkOverlap := 200 |} in
  docs <- await (SplitDocuments textSplitter rawDocs)
            (fun w => splitDocuments X w textSplitter rawDocs) ;;
  logger_info ("Document split into " +:+ pretty (length docs) +:+ " chunks") ;;
  embeddings <- new_embeddings ;;
  let indexName := PINECONE_INDEX_NAME env in
  (if falsy indexName then throw index_name_unset else ret tt) ;;
  logger_info ("Initializing Pinecone index: " +:+ default "" indexName) ;;
  let pineconeIndex := pinecone_Index (pinecone env) (default "" indexName) in
  logger_info "Storing documents in Pinecone" ;;
  let dbConfig := {| pineconeIndex := pineconeIndex;
                     config_namespace := Some "euler-namespace" |} in
  await (FromDocuments docs embeddings dbConfig)
    (fun w => fromDocuments X w docs embeddings dbConfig) ;;
  fs_unlinkSync tempFilePath ;;
  logger_info "Document processed and stored in Pinecone" ;;
  ret (res_json [("status", VStr "success");
                 ("message", VStr "Document processed and stored")]).

Definition uploadDoc (req : UploadRequest) : World -> Response * World :=
  try_catch (uploadDoc_try req)
    (fun error w =>
       (res_status_json 500
          [("error", VStr "Error processing document"); ("details", VStr error)],
        record (ConsoleError error)
          (record (Log Error "Error processing document" (Some error)) w))).

(** ** Loading the module (lines 27-33, 35, 126)

    The two clients are constructed before anything is exported: when a
    constructor throws, the module does not load and no request is ever
    handled.  The [console.log] of line 26, which prints the store API key
    when the module is loaded, is left out. *)



(** ** Observations on traces *)

Definition calls (t : list Event) : list Call :=
  omap (fun e => if e is Ext c then Some c else None) t.

Definition fs_calls (t : list Event) : list FsCall :=
  omap (fun e => if e is Fs c then Some c else None) t.

(** The entries appended to "chat.log" by the logger's File transport,
    each without the timestamp that the format of lines 17-20 adds. *)
Definition chat_log (t : list Event) : list (Level * string * option string) :=
  omap (fun e => if e is Log l message meta then Some (l, message, meta) else None) t.

(** The external services of the system, and the calls that reach them:
    a similarity search embeds its query and an upsert embeds its chunks. *)
Inductive Provider := EmbeddingProvider | DocumentStore | GenerationProvider.

Definition reaches (p : Provider) (c : Call) : bool :=
  match p, c with
  | EmbeddingProvider,
    (NewEmbeddings _ | EmbedQuery _ _ | SimilaritySearch _ _ _ | FromDocuments _ _ _) => true
  | DocumentStore,
    (DescribeIndexStats _ | SimilaritySearch _ _ _ | IndexQuery _ _ | FromDocuments _ _ _) => true
  | GenerationProvider, GenerateContent _ _ => true
  | _, _ => false
  end.

Definition calls_to (p : Provider) (t : list Event) : list Call :=
  List.filter (reaches p) (calls t).

(** The namespace a vector-store operation reads or writes: the one of the
    store configuration for LangChain's store, the one of the index handle
    for a direct query. *)
Definition namespace_of (c : Call) : option (option string) :=
  match c with
  | SimilaritySearch s _ _ => Some (config_namespace (store_config s))
  | IndexQuery i _ => Some (index_namespace i)
  | FromDocuments _ _ c => Some (config_namespace c)
  | _ => None
  end.

Definition scoped_to (ns : string) (t : list Event) : Prop :=
  forall c o, In c (calls t) -> namespace_of c = Some o -> o = Some ns.

(** The chunks handed to the store by the upserts of a trace. *)
Definition upserted (t : list Event) : list Doc :=
  concat (omap (fun c => if c is FromDocuments docs _ _ then Some docs else None)
            (calls t)).

(** [fs.writeFileSync] was called on [f] at its staging path; whether the
    disk took the write is [writes] below. *)
Definition staged (f : File) (t : list Event) : Prop :=
  In (WriteFileSync (tempFilePath f) (buffer f)) (fs_calls t).

(** A call that resolves with the same value whenever it is made. *)
Definition resolves {A} (call : World -> Result A) (a : A) : Prop :=
  forall w, call w = Resolved a.

Definition rejects {A} (call : World -> Result A) (e : string) : Prop :=
  forall w, call w = Rejected e.

(** ** Vocabulary of the statements *)

(** The disk takes a write whenever it is made, or refuses it with [e]. *)
Definition writes (path : string) (data : Buffer) : Prop :=
  forall w, writeFileSync_error X w path data = None.

Definition write_fails (path : string) (data : Buffer) (e : string) : Prop :=
  forall w, writeFileSync_error X w path data = Some e.

(** Running a computation from a world and looking at how it completes. *)
Definition wp {A} (c : M A) (w : World) (Q : Completion A * World -> Prop) : Prop :=
  Q (c w).

(** The handles [questionAnswer] and [uploadDoc] build for an index name. *)
Definition index_of (name : string) : PineconeIndex :=
  pinecone_Index (pinecone env) name.

Definition store_of (name : string) : PineconeStore :=
  fromExistingIndex embeddings_fields
    {| pineconeIndex := index_of name; config_namespace := Some namespace |}.

Definition upsert_config (name : string) : PineconeStoreConfig :=
  {| pineconeIndex := index_of name; config_namespace := Some "euler-namespace" |}.

Definition fallback_options (v : list number) : QueryOptions number :=
  {| vector := v; topK := 10; includeMetadata := true; includeValues := true |}.

Definition textSplitter : RecursiveCharacterTextSplitter :=
  {| chunkSize := 1000; chunkOverlap := 200 |}.

(** The steps of [questionAnswer] up to and including the primary search:
    the question is [q], the index is called [name], the embeddings client
    is built, the statistics call and the embedding of the question
    resolve, and the top-3 similarity search resolves with [found]. *)
Record retrieval (req : QuestionRequest) (q name : string)
    (v : list number) (found : list Doc) : Prop := {
  retrieval_question : question req = Some q;
  retrieval_question_nonempty : q <> "";
  retrieval_index : PINECONE_INDEX_NAME env = Some name;
  retrieval_index_nonempty : name <> "";
  retrieval_embeddings :
    resolves (fun w => new_GoogleGenerativeAIEmbeddings X w embeddings_fields) tt;
  retrieval_stats :
    forall w, exists stats, describeIndexStats X w (index_of name) = Resolved stats;
  retrieval_embedQuery :
    resolves (fun w => embedQuery X w embeddings_fields q) v;
  retrieval_search :
    resolves (fun w => similaritySearch X w (store_of name) q 3) found
}.

(** The texts that lines 89-91 read from the matches of a direct query,
    and the documents built from them. *)
Definition fallback_texts (r : QueryResponse number) : list (option string) :=
  map (fun m => md ← match_metadata m; md !! "pageContent") (matches r).

Definition fallback_docs (r : QueryResponse number) : list Doc :=
  map (fun text => {| pageContent := text; metadata := None |}) (fallback_texts r).

(** The texts of the documents that a request retrieves (lines 75-92):
    those of the primary search, or those read from the matches of the
    direct query when the primary search finds nothing. *)
Definition retrieved_texts (found : list Doc) (r : QueryResponse number) :
    list (option string) :=
  if found is [] then fallback_texts r else map pageContent found.

(** The calls into third-party packages that one request of the query
    pipeline makes up to the direct query, when the primary search finds
    nothing. *)
Definition fallback_calls (q name : string) (v : list number) : list Call :=
  [ NewEmbeddings embeddings_fields;
    DescribeIndexStats (index_of name);
    EmbedQuery embeddings_fields q;
    SimilaritySearch (store_of name) q 3;
    IndexQuery (index_of name) (fallback_options v) ].

(** The loader that lines 155-160 pick for a declared MIME type. *)
Definition loader_of (fileType : string) : option LoaderKind :=
  if String.eqb fileType pdf then Some PDFLoader
  else if String.eqb fileType docx then Some DocxLoader
  else None.

(** What lines 141-152 do to the disk. *)
Definition staging_calls (f : File) (w : World) : list FsCall :=
  ExistsSync uploadsDir ::
  (if on_disk uploadsDir w then [] else [MkdirSync uploadsDir]) ++
  [WriteFileSync (tempFilePath f) (buffer f)].

(** The steps of [uploadDoc] for a file of a supported type, up to the
    construction of the embeddings client: the file is written to the
    staging path, the loader resolves with [rawDocs] and the splitter with
    [docs]. *)
Record chunking (req : UploadRequest) (f : File) (k : LoaderKind)
    (rawDocs docs : list Doc) : Prop := {
  chunking_file : file req = Some f;
  chunking_type : loader_of (mimetype f) = Some k;
  chunking_write : writes (tempFilePath f) (buffer f);
  chunking_load : resolves (fun w => load X w k (tempFilePath f)) rawDocs;
  chunking_split :
    resolves (fun w => splitDocuments X w textSplitter rawDocs) docs;
  chunking_embeddings :
    resolves (fun w => new_GoogleGenerativeAIEmbeddings X w embeddings_fields) tt
}.

(** A whole ingestion that succeeds. *)
Record ingestion (req : UploadRequest) (f : File) (k : LoaderKind)
    (name : string) (rawDocs docs : list Doc) : Prop := {
  ingestion_chunking : chunking req f k rawDocs docs;
  ingestion_index : PINECONE_INDEX_NAME env = Some name;
  ingestion_index_nonempty : name <> "";
  ingestion_upsert :
    resolves
      (fun w => fromDocuments X w docs embeddings_fields (upsert_config name)) tt
}.

(** The calls of a request of the query pipeline up to and including the
    primary search. *)
Definition primary_calls (q name : string) : list Call :=
  [ NewEmbeddings embeddings_fields;
    DescribeIndexStats (index_of name);
    EmbedQuery embeddings_fields q;
    SimilaritySearch (store_of name) q 3 ].

(** The message of the [TypeError] of line 90. *)
Definition undefined_pageContent : string :=
  "Cannot read properties of undefined (reading 'pageContent')".

End Controller.

(** A response that carries the number of chunks stored. *)
Definition carries_chunkCount (r : Response) (n : nat) : Prop :=
  property "chunkCount" (body r) = Some (VNum n).



Arguments pretty : simpl never.
Arguments String.append : simpl never.
Arguments bind : simpl never.
Arguments await : simpl never.
Arguments logger : simpl never.
Arguments record : simpl never.
Arguments calls : simpl never.
Arguments fs_calls : simpl never.
Arguments calls_to : simpl never.
Arguments chat_log : simpl never.
Arguments wp : simpl never.

(** ** A concrete deployment

    One runtime, one environment and a family of collaborator behaviours on
    which the handlers can be evaluated. *)
Module Scenario.

Definition node : Runtime := {|
  number := Z;
  IndexStats := unit;
  JSON_stringify_stats := fun _ => "{}";
  JSON_stringify_query := fun _ => "{}";
  __dirname := "/app/Controllers";
  path_join := fun a b => a +:+ "/" +:+ b
|}.

Definition env : ProcessEnv := {|
  PINECONE_API_KEY := Some "pc-key";
  PINECONE_INDEX_NAME := Some "euler";
  GEMINI_API_KEY := Some "g-key"
|}.

(** The store index name is missing. *)
Definition env_without_index : ProcessEnv := {|
  PINECONE_API_KEY := Some "pc-key";
  PINECONE_INDEX_NAME := None;
  GEMINI_API_KEY := Some "g-key"
|}.



Definition empty_disk : @World node := {| files := ∅; dirs := ∅; trace := [] |}.

(** A disk whose file names are at most 255 bytes long. *)
Fixpoint has_slash (s : string) : bool :=
  match s with
  | EmptyString => false
  | String c s' => Ascii.eqb c "/" || has_slash s'
  end.

Fixpoint basename (s : string) : string :=
  match s with
  | EmptyString => EmptyString
  | String c s' =>
      if has_slash s' then basename s'
      else if Ascii.eqb c "/" then s' else s
  end.

Definition ENAMETOOLONG (path : string) : string :=
  "ENAMETOOLONG: name too long, open '" +:+ path +:+ "'".

Definition name_max (path : string) : option string :=
  if Nat.ltb 255 (String.length (basename path)) then Some (ENAMETOOLONG path)
  else None.

(** Client constructors that insist on their API key. *)
Definition pinecone_key_missing : string :=
  "The client configuration must have required property: apiKey.".

Definition gemini_key_missing : string :=
  "Please set an API key for Google GenerativeAI in the environment variable GOOGLE_API_KEY or in the `apiKey` field of the GoogleGenerativeAIEmbeddings constructor".

Definition Pinecone_constructor (p : Pinecone) : Result unit :=
  if pinecone_apiKey p is Some _ then Resolved tt else Rejected pinecone_key_missing.

Definition Embeddings_constructor (e : GoogleGenerativeAIEmbeddings) : Result unit :=
  if embeddings_apiKey e is Some _ then Resolved tt else Rejected gemini_key_missing.

Definition chunk (text : string) : Doc :=
  {| pageContent := Some text; metadata := Some ∅ |}.

(** Packages that always resolve, except where a parameter says otherwise:
    what the similarity search finds, how the direct query, the embedding
    of a question and the loaders end. *)
Definition collaborators (found : list Doc)
    (queried : Result (QueryResponse Z)) (embedded : Result (list Z))
    (loaded : Result (list Doc)) : @Collaborators node := {|
  new_Pinecone := Pinecone_constructor;
  new_GoogleGenerativeAI := fun _ => Resolved tt;
  writeFileSync_error := fun _ path _ => name_max path;
  new_GoogleGenerativeAIEmbeddings := fun _ e => Embeddings_constructor e;
  describeIndexStats := fun _ _ => Resolved (A := @IndexStats node) tt;
  embedQuery := fun _ _ _ => embedded;
  similaritySearch := fun _ _ _ _ => Resolved found;
  query := fun _ _ _ => queried;
  generateContent := fun _ _ _ => Resolved "An answer.";
  load := fun _ _ _ => loaded;
  splitDocuments := fun _ _ _ => Resolved [chunk "first half"; chunk "second half"];
  fromDocuments := fun _ _ _ _ => Resolved tt
|}.

Definition embedding : list Z := [1; 2; 3]%Z.

Definition no_match : QueryResponse Z := {| matches := [] |}.

Definition one_match : QueryResponse Z := {|
  matches :=
    [ {| match_id := "rec-1"; match_values := [1; 2; 3]%Z;
         match_metadata := Some {[ "pageContent" := "Euler was born in Basel." ]} |} ]
|}.

(** Nothing is found by either path. *)
Definition empty_store : @Collaborators node :=
  collaborators [] (Resolved no_match) (Resolved embedding)
    (Resolved [chunk "a page"]).

(** The similarity search finds nothing, the direct query one record. *)
Definition fallback_store : @Collaborators node :=
  collaborators [] (Resolved one_match) (Resolved embedding)
    (Resolved [chunk "a page"]).

(** The loaders reject the staged file. *)
Definition corrupt_file : @Collaborators node :=
  collaborators [] (Resolved no_match) (Resolved embedding)
    (Rejected "Invalid PDF structure").

Definition ask (q : string) : QuestionRequest := {| question := Some q |}.

Definition euler_question : string := "Where was Euler born?".

Definition no_question : QuestionRequest := {| question := None |}.

Definition report_pdf : File := {|
  mimetype := "application/pdf";
  originalname := "report.pdf";
  buffer := ["%"; "P"; "D"; "F"]%byte
|}.

(** Another upload under the same client-supplied name. *)
Definition report_docx : File := {|
  mimetype := "application/vnd.openxmlformats-officedocument.wordprocessingml.document";
  originalname := "report.pdf";
  buffer := ["P"; "K"]%byte
|}.

Definition notes_txt : File := {|
  mimetype := "text/plain";
  originalname := "notes.txt";
  buffer := ["h"; "i"]%byte
|}.

(** A plain-text upload under a name of 260 bytes. *)
Definition long_name : string :=
  String.concat "" (repeat "a" 256) +:+ ".txt".

Definition long_name_txt : File := {|
  mimetype := "text/plain";
  originalname := long_name;
  buffer := ["h"; "i"]%byte
|}.

Definition upload (f : File) : UploadRequest := {| file := Some f |}.

(** *** More behaviours of the packages *)

Definition found_docs : list Doc :=
  [chunk "Euler was born in Basel."; chunk "Basel lies on the Rhine."].

(** The similarity search finds two documents. *)
Definition search_hit : @Collaborators node :=
  collaborators found_docs (Resolved no_match) (Resolved embedding)
    (Resolved [chunk "a page"]).

Definition quota_exhausted : string := "Resource has been exhausted".

(** The similarity search finds two documents, the generation provider
    rejects every prompt. *)
Definition generation_down : @Collaborators node := {|
  new_Pinecone := Pinecone_constructor;
  new_GoogleGenerativeAI := fun _ => Resolved tt;
  writeFileSync_error := fun _ path _ => name_max path;
  new_GoogleGenerativeAIEmbeddings := fun _ e => Embeddings_constructor e;
  describeIndexStats := fun _ _ => Resolved (A := @IndexStats node) tt;
  embedQuery := fun _ _ _ => Resolved embedding;
  similaritySearch := fun _ _ _ _ => Resolved found_docs;
  query := fun _ _ _ => Resolved no_match;
  generateContent := fun _ _ _ => Rejected quota_exhausted;
  load := fun _ _ _ => Resolved [chunk "a page"];
  splitDocuments := fun _ _ _ => Resolved [chunk "first half"; chunk "second half"];
  fromDocuments := fun _ _ _ _ => Resolved tt
|}.

(** The similarity search finds nothing, the direct query one record, and
    the generation provider rejects every prompt. *)
Definition fallback_generation_down : @Collaborators node := {|
  new_Pinecone := Pinecone_constructor;
  new_GoogleGenerativeAI := fun _ => Resolved tt;
  writeFileSync_error := fun _ path _ => name_max path;
  new_GoogleGenerativeAIEmbeddings := fun _ e => Embeddings_constructor e;
  describeIndexStats := fun _ _ => Resolved (A := @IndexStats node) tt;
  embedQuery := fun _ _ _ => Resolved embedding;
  similaritySearch := fun _ _ _ _ => Resolved [];
  query := fun _ _ _ => Resolved one_match;
  generateContent := fun _ _ _ => Rejected quota_exhausted;
  load := fun _ _ _ => Resolved [chunk "a page"];
  splitDocuments := fun _ _ _ => Resolved [chunk "first half"; chunk "second half"];
  fromDocuments := fun _ _ _ _ => Resolved tt
|}.

(** A record that was stored without metadata. *)
Definition bare_match : QueryResponse Z := {|
  matches :=
    [ {| match_id := "rec-2"; match_values := [4; 5; 6]%Z;
         match_metadata := None |} ]
|}.

Definition bare_store : @Collaborators node :=
  collaborators [] (Resolved bare_match) (Resolved embedding)
    (Resolved [chunk "a page"]).

(** A record whose metadata keeps its text under another key. *)
Definition untitled_match : QueryResponse Z := {|
  matches :=
    [ {| match_id := "rec-3"; match_values := [7; 8; 9]%Z;
         match_metadata := Some {[ "text" := "Euler was born in Basel." ]} |} ]
|}.

Definition untitled_store : @Collaborators node :=
  collaborators [] (Resolved untitled_match) (Resolved embedding)
    (Resolved [chunk "a page"]).

Definition index_not_found : string := "Index not found".

(** The store rejects every upsert. *)
Definition store_down : @Collaborators node := {|
  new_Pinecone := Pinecone_constructor;
  new_GoogleGenerativeAI := fun _ => Resolved tt;
  writeFileSync_error := fun _ path _ => name_max path;
  new_GoogleGenerativeAIEmbeddings := fun _ e => Embeddings_constructor e;
  describeIndexStats := fun _ _ => Resolved (A := @IndexStats node) tt;
  embedQuery := fun _ _ _ => Resolved embedding;
  similaritySearch := fun _ _ _ _ => Resolved [];
  query := fun _ _ _ => Resolved no_match;
  generateContent := fun _ _ _ => Resolved "An answer.";
  load := fun _ _ _ => Resolved [chunk "a page"];
  splitDocuments := fun _ _ _ => Resolved [chunk "first half"; chunk "second half"];
  fromDocuments := fun _ _ _ _ => Rejected index_not_found
|}.

(** The PDF loader rejects what it is given, the DOCX loader does not. *)
Definition pdf_loader_down : @Collaborators node := {|
  new_Pinecone := Pinecone_constructor;
  new_GoogleGenerativeAI := fun _ => Resolved tt;
  writeFileSync_error := fun _ path _ => name_max path;
  new_GoogleGenerativeAIEmbeddings := fun _ e => Embeddings_constructor e;
  describeIndexStats := fun _ _ => Resolved (A := @IndexStats node) tt;
  embedQuery := fun _ _ _ => Resolved embedding;
  similaritySearch := fun _ _ _ _ => Resolved [];
  query := fun _ _ _ => Resolved no_match;
  generateContent := fun _ _ _ => Resolved "An answer.";
  load := fun _ k _ =>
    match k with
    | PDFLoader => Rejected "Invalid PDF structure"
    | DocxLoader => Resolved [chunk "a page"]
    end;
  splitDocuments := fun _ _ _ => Resolved [chunk "first half"; chunk "second half"];
  fromDocuments := fun _ _ _ _ => Resolved tt
|}.

Definition no_file : UploadRequest := {| file := None |}.

End Scenario.

Section Properties.

Context {R : Runtime}.
Variable env : ProcessEnv.
Variable X : Collaborators.

(** ** One step of a handler *)

Implicit Types (w : World) (message : string).

Lemma wp_ret {A} (a : A) w Q : Q (Normal a, w) -> wp (ret a) w Q.
Proof. exact id. Qed.

Lemma wp_bind_ret {A B} (a : A) (k : A -> M B) w Q :
  wp (k a) w Q -> wp (bind (ret a) k) w Q.
Proof. exact id. Qed.

Lemma wp_bind_return {A B} (r : Response) (k : A -> M B) w Q :
  Q (Return r, w) -> wp (bind (return_ r) k) w Q.
Proof. exact id. Qed.

Lemma wp_bind_throw {A B} message (k : A -> M B) w Q :
  Q (Throw message, w) -> wp (bind (throw message) k) w Q.
Proof. exact id. Qed.

Lemma bind_bind {A B C} (c : M A) (k : A -> M B) (k' : B -> M C) w :
  bind (bind c k) k' w = bind c (fun a => bind (k a) k') w.
Proof. unfold bind. destruct (c w) as [[a|r|e] w']; reflexivity. Qed.

Lemma wp_bind_bind {A B C} (c : M A) (k : A -> M B) (k' : B -> M C) w Q :
  wp (bind c (fun a => bind (k a) k')) w Q -> wp (bind (bind c k) k') w Q.
Proof. unfold wp. rewrite bind_bind. exact id. Qed.

Lemma wp_bind_logger {B} l message meta (k : unit -> M B) w Q :
  wp (k tt) (record (Log l message meta) w) Q ->
  wp (bind (logger l message meta) k) w Q.
Proof. exact id. Qed.

Lemma wp_bind_logger_info {B} message (k : unit -> M B) w Q :
  wp (k tt) (record (Log Info message None) w) Q ->
  wp (bind (logger_info message) k) w Q.
Proof. exact id. Qed.

Lemma wp_bind_console_log {B} r (k : unit -> M B) w Q :
  wp (k tt) (record (ConsoleLog r) w) Q -> wp (bind (console_log r) k) w Q.
Proof. exact id. Qed.

Lemma wp_bind_await {A B} (c : Call) (f : World -> Result A) (k : A -> M B) w Q :
  (forall a, f w = Resolved a -> wp (k a) (record (Ext c) w) Q) ->
  (forall e, f w = Rejected e -> Q (Throw e, record (Ext c) w)) ->
  wp (bind (await c f) k) w Q.
Proof.
  unfold wp, bind, await. intros Hres Hrej.
  destruct (f w) as [a|e]; [apply Hres | apply Hrej]; reflexivity.
Qed.

Lemma wp_bind_await_resolved {A B} (c : Call) (f : World -> Result A)
    (k : A -> M B) w Q (a : A) :
  f w = Resolved a ->
  wp (k a) (record (Ext c) w) Q ->
  wp (bind (await c f) k) w Q.
Proof. unfold wp, bind, await. intros ->. exact id. Qed.

Lemma wp_bind_await_rejected {A B} (c : Call) (f : World -> Result A)
    (k : A -> M B) w Q message :
  f w = Rejected message ->
  Q (Throw message, record (Ext c) w) ->
  wp (bind (await c f) k) w Q.
Proof. unfold wp, bind, await. intros ->. exact id. Qed.

Lemma wp_bind_existsSync {B} path (k : bool -> M B) w Q (b : bool) :
  on_disk path w = b ->
  wp (k b) (record (Fs (ExistsSync path)) w) Q ->
  wp (bind (fs_existsSync path) k) w Q.
Proof. intros <-. exact id. Qed.

Lemma wp_bind_mkdirSync {B} path (k : unit -> M B) w Q :
  wp (k tt)
    (record (Fs (MkdirSync path))
       {| files := files w; dirs := {[ path ]} ∪ dirs w; trace := trace w |}) Q ->
  wp (bind (fs_mkdirSync path) k) w Q.
Proof. exact id. Qed.

Lemma wp_bind_writeFileSync {B} path data (k : unit -> M B) w Q :
  (writeFileSync_error X w path data = None ->
   wp (k tt)
     (record (Fs (WriteFileSync path data))
        {| files := <[ path := data ]> (files w); dirs := dirs w;
           trace := trace w |}) Q) ->
  (forall e, writeFileSync_error X w path data = Some e ->
             Q (Throw e, record (Fs (WriteFileSync path data)) w)) ->
  wp (bind (fs_writeFileSync X path data) k) w Q.
Proof.
  unfold wp, bind, fs_writeFileSync. intros Hok Hno.
  destruct (writeFileSync_error X w path data) as [e|];
    [apply Hno | apply Hok]; reflexivity.
Qed.

Lemma wp_bind_writeFileSync_ok {B} path data (k : unit -> M B) w Q :
  writeFileSync_error X w path data = None ->
  wp (k tt)
    (record (Fs (WriteFileSync path data))
       {| files := <[ path := data ]> (files w); dirs := dirs w;
          trace := trace w |}) Q ->
  wp (bind (fs_writeFileSync X path data) k) w Q.
Proof. unfold wp, bind, fs_writeFileSync. intros ->. exact id. Qed.

Lemma wp_bind_writeFileSync_refused {B} path data (k : unit -> M B) w Q e :
  writeFileSync_error X w path data = Some e ->
  Q (Throw e, record (Fs (WriteFileSync path data)) w) ->
  wp (bind (fs_writeFileSync X path data) k) w Q.
Proof. unfold wp, bind, fs_writeFileSync. intros ->. exact id. Qed.

Lemma wp_bind_unlinkSync {B} path data (k : unit -> M B) w Q :
  files w !! path = Some data ->
  wp (k tt)
    (record (Fs (UnlinkSync path))
       {| files := delete path (files w); dirs := dirs w; trace := trace w |}) Q ->
  wp (bind (fs_unlinkSync path) k) w Q.
Proof. unfold wp, bind, fs_unlinkSync. intros ->. exact id. Qed.

Lemma files_record e w : files (record e w) = files w.
Proof. reflexivity. Qed.

Lemma trace_record e w : trace (record e w) = trace w ++ [e].
Proof. reflexivity. Qed.

Lemma trace_record2 e1 e2 w :
  trace (record e2 (record e1 w)) = trace w ++ [e1; e2].
Proof.
  rewrite !trace_record, <- app_assoc. reflexivity.
Qed.

(** Entering [try { ... } catch (error) { ... }]. *)
Lemma wp_try_catch (body : M Response)
    (handler : string -> World -> Response * World) w
    (P : Response * World -> Prop) :
  wp body w
    (fun o =>
       P match o with
         | (Normal r, w') => (r, w')
         | (Return r, w') => (r, w')
         | (Throw e, w') => handler e w'
         end) ->
  P (try_catch body handler w).
Proof. exact id. Qed.

Ltac enter :=
  unfold questionAnswer, uploadDoc;
  match goal with
  | |- context [try_catch ?b ?h ?w] =>
      pattern (try_catch b h w);
      match goal with |- ?P _ => apply (wp_try_catch b h w P) end
  end;
  unfold questionAnswer_try, uploadDoc_try, new_embeddings;
  cbv beta iota zeta.

(** Steps that need no side condition. *)
Ltac wp_step :=
  lazymatch goal with
  | |- wp (bind (bind _ _) _) _ _ => apply wp_bind_bind
  | |- wp (bind (ret _) _) _ _ => apply wp_bind_ret
  | |- wp (bind (return_ _) _) _ _ => apply wp_bind_return
  | |- wp (bind (throw _) _) _ _ => apply wp_bind_throw
  | |- wp (bind (logger _ _ _) _) _ _ => apply wp_bind_logger
  | |- wp (bind (logger_info _) _) _ _ => apply wp_bind_logger_info
  | |- wp (bind (console_log _) _) _ _ => apply wp_bind_console_log
  | |- wp (bind (fs_mkdirSync _) _) _ _ => apply wp_bind_mkdirSync
  | |- wp (bind (fs_unlinkSync _) _) _ _ =>
      eapply wp_bind_unlinkSync;
      [ rewrite ?files_record; cbn [files]; apply lookup_insert_eq | ]
  | |- wp (ret _) _ _ => apply wp_ret
  end;
  cbv beta iota zeta.

(** An awaited call whose outcome is known from a hypothesis. *)
Ltac wp_await :=
  lazymatch goal with
  | |- wp (bind (await ?c ?f) ?k) ?w ?Q =>
      match goal with
      | H : resolves _ ?a |- _ =>
          apply (wp_bind_await_resolved c f k w Q a (H w))
      | H : rejects _ ?e |- _ =>
          apply (wp_bind_await_rejected c f k w Q e (H w))
      end
  end;
  cbv beta iota zeta.

(** An awaited call that resolves, with a value that may depend on the
    world. *)
Ltac wp_await_some H :=
  lazymatch goal with
  | |- wp (bind (await ?c ?f) ?k) ?w ?Q =>
      let a := fresh "a" in
      let Ha := fresh "Ha" in
      destruct (H w) as [a Ha];
      apply (wp_bind_await_resolved c f k w Q a Ha)
  end;
  cbv beta iota zeta.

(** An awaited call whose outcome is not known: both are followed. *)
Ltac wp_await_cases :=
  lazymatch goal with
  | |- wp (bind (await _ _) _) _ _ =>
      apply wp_bind_await; [intros ? ? | intros ? ?]
  end;
  cbv beta iota zeta.

Ltac wp_exists H :=
  lazymatch goal with
  | |- wp (bind (fs_existsSync ?p) ?k) ?w ?Q =>
      apply (wp_bind_existsSync p k w Q _ H)
  end;
  cbn [negb]; cbv beta iota zeta.

(** The write of the staged file, when a hypothesis says how it ends. *)
Ltac wp_write :=
  lazymatch goal with
  | |- wp (bind (fs_writeFileSync _ ?p ?d) ?k) ?w ?Q =>
      match goal with
      | H : writes _ _ _ |- _ =>
          apply (wp_bind_writeFileSync_ok p d k w Q (H w))
      | H : write_fails _ _ _ ?e |- _ =>
          apply (wp_bind_writeFileSync_refused p d k w Q e (H w))
      end
  end;
  cbv beta iota zeta.

(** The write of the staged file, when nothing is known: both ends are
    followed. *)
Ltac wp_write_cases Hok e He :=
  lazymatch goal with
  | |- wp (bind (fs_writeFileSync _ _ _) _) _ _ =>
      apply wp_bind_writeFileSync; [intros Hok | intros e He]
  end;
  cbv beta iota zeta.

Ltac run := repeat first [wp_step | wp_await | wp_write].

(** ** Traces and truthiness *)

Lemma calls_snoc (t : list Event) (e : Event) :
  calls (t ++ [e]) = calls t ++ (if e is Ext c then [c] else []).
Proof.
  unfold calls. rewrite omap_app. f_equal. destruct e; reflexivity.
Qed.

Lemma fs_calls_snoc (t : list Event) (e : Event) :
  fs_calls (t ++ [e]) = fs_calls t ++ (if e is Fs c then [c] else []).
Proof.
  unfold fs_calls. rewrite omap_app. f_equal. destruct e; reflexivity.
Qed.

Lemma calls_to_app (p : Provider) (t u : list Event) :
  calls_to p (t ++ u) = calls_to p t ++ calls_to p u.
Proof.
  unfold calls_to, calls. rewrite omap_app. apply List.filter_app.
Qed.

Lemma calls_to_snoc (p : Provider) (t : list Event) (e : Event) :
  calls_to p (t ++ [e]) =
  calls_to p t ++ (if e is Ext c then if reaches p c then [c] else [] else []).
Proof.
  rewrite calls_to_app. f_equal. destruct e; reflexivity.
Qed.

Lemma chat_log_snoc (t : list Event) (e : Event) :
  chat_log (t ++ [e]) =
  chat_log t ++ (if e is Log l message meta then [(l, message, meta)] else []).
Proof.
  unfold chat_log. rewrite omap_app. f_equal. destruct e; reflexivity.
Qed.

(** The trace of a world built by a run, as the initial trace followed by
    the events of the run. *)
Ltac unfold_trace := repeat first [rewrite trace_record | progress (cbn [trace])].

Ltac trace_calls :=
  unfold_trace; rewrite !calls_snoc; cbn [app];
  rewrite ?app_nil_r, <- ?app_assoc; cbn [app].

Ltac trace_calls_to :=
  unfold_trace; rewrite !calls_to_snoc; cbn [app reaches];
  rewrite ?app_nil_r, <- ?app_assoc; cbn [app].

Ltac trace_fs_calls :=
  unfold_trace; rewrite !fs_calls_snoc; cbn [app];
  rewrite ?app_nil_r, <- ?app_assoc; cbn [app].

Ltac trace_chat_log :=
  unfold_trace; rewrite !chat_log_snoc; cbn [app];
  rewrite ?app_nil_r, <- ?app_assoc; cbn [app].

Lemma falsy_true (v : option string) :
  falsy v = true <-> v = None \/ v = Some "".
Proof.
  destruct v as [s|]; cbn; [|tauto].
  unfold truthy. rewrite negb_involutive, String.eqb_eq.
  split; [intros ->; right; reflexivity | intros [?|[= ->]]; congruence].
Qed.

Lemma falsy_false (s : string) : s <> "" -> falsy (Some s) = false.
Proof.
  intros Hs; cbn. unfold truthy. rewrite negb_involutive.
  apply String.eqb_neq, Hs.
Qed.

(** ** The query pipeline *)

(** C8. A request whose question is missing or empty is answered with
    400 "No question provided", and nothing but the logger is touched: no
    call into any third-party package is made, so none to the embedding
    provider, the document store or the generation provider. *)
Theorem questionAnswer_rejects_missing_question (req : QuestionRequest) (w : World) :
  question req = None \/ question req = Some "" ->
  fst (questionAnswer env X req w) =
    res_status_json 400 [("error", VStr "No question provided")] /\
  calls (trace (snd (questionAnswer env X req w))) = calls (trace w) /\
  files (snd (questionAnswer env X req w)) = files w.
Proof.
  intros Hq. apply falsy_true in Hq.
  enter. rewrite Hq. run. cbn [fst snd].
  split; [reflexivity|]. split; [|reflexivity].
  trace_calls. reflexivity.
Qed.

(** The run of [questionAnswer] up to the primary search. *)
Ltac retrieve Hq Hq' Hi Hi' Hstats :=
  enter;
  rewrite Hq, Hi, (falsy_false _ Hq'), (falsy_false _ Hi');
  cbn [default from_option id js_or truthy negb String.eqb Ascii.eqb Bool.eqb namespace];
  run; wp_await_some Hstats; run.

(** C5. When the primary search and the fallback query both come back
    with no match, the answer is the fixed message and the generation
    provider is never called. *)
Theorem questionAnswer_no_documents (req : QuestionRequest) (q name : string)
    (v : list number) (r : QueryResponse number) (w : World) :
  retrieval env X req q name v [] ->
  resolves (fun w => query X w (index_of env name) (fallback_options v)) r ->
  matches r = [] ->
  fst (questionAnswer env X req w) = res_json [("answer", VStr no_documents)] /\
  calls_to GenerationProvider (trace (snd (questionAnswer env X req w))) =
    calls_to GenerationProvider (trace w).
Proof.
  intros [Hq Hq' Hi Hi' Hnew Hstats Hemb Hsearch] Hquery Hr.
  retrieve Hq Hq' Hi Hi' Hstats.
  cbn [length Nat.eqb]. run. rewrite Hr. cbn [array_map]. run.
  cbn [length Nat.eqb]. run. cbn [fst snd].
  split; [reflexivity|]. trace_calls_to. reflexivity.
Qed.

Lemma pageContent_fallback_docs (r : QueryResponse number) :
  map pageContent (fallback_docs r) = fallback_texts r.
Proof.
  unfold fallback_docs. rewrite List.map_map. apply List.map_id.
Qed.

Lemma fallback_docs_nonempty (r : QueryResponse number) :
  matches r <> [] -> Nat.eqb (length (fallback_docs r)) 0 = false.
Proof.
  unfold fallback_docs, fallback_texts.
  destruct (matches r); [congruence | reflexivity].
Qed.

Lemma doc_of_match_run (m : ScoredRecord number) (w : World) :
  doc_of_match m w =
  (match match_metadata m with
   | Some md => Normal {| pageContent := md !! "pageContent"; metadata := None |}
   | None => Throw "Cannot read properties of undefined (reading 'pageContent')"
   end, w).
Proof.
  unfold doc_of_match, metadata_pageContent, bind.
  destruct (match_metadata m); reflexivity.
Qed.

Lemma array_map_cons {A B} (f : A -> M B) (a : A) (l : list A) (w : World) :
  array_map f (a :: l) w =
  match f a w with
  | (Normal b, w') =>
      match array_map f l w' with
      | (Normal bs, w'') => (Normal (b :: bs), w'')
      | (Return r, w'') => (Return r, w'')
      | (Throw e, w'') => (Throw e, w'')
      end
  | (Return r, w') => (Return r, w')
  | (Throw e, w') => (Throw e, w')
  end.
Proof.
  reflexivity.
Qed.

(** Mapping [doc_of_match] over matches touches nothing: it yields the
    documents when every match has metadata, and throws otherwise. *)
Lemma array_map_doc_of_match (ms : list (ScoredRecord number)) (w : World) :
  (Forall (fun m => is_Some (match_metadata m)) ms /\
   array_map doc_of_match ms w =
     (Normal (map (fun text => {| pageContent := text; metadata := None |})
                (map (fun m => md ← match_metadata m; md !! "pageContent") ms)),
      w)) \/
  (~ Forall (fun m => is_Some (match_metadata m)) ms /\
   exists e, array_map doc_of_match ms w = (Throw e, w)).
Proof.
  induction ms as [|m ms IH].
  - left. split; [constructor | reflexivity].
  - rewrite array_map_cons, doc_of_match_run.
    destruct (match_metadata m) as [md|] eqn:Hmd.
    + destruct IH as [[Hms ->]|[Hms [e ->]]].
      * left. split; [|cbn [map]; rewrite Hmd; reflexivity].
        constructor; [rewrite Hmd; eexists; reflexivity | exact Hms].
      * right. split; [|eexists; reflexivity].
        intros Hall. apply Hms. inversion Hall; assumption.
    + right. split; [|eexists; reflexivity].
      intros Hall. inversion Hall as [|? ? [md Hsome] _]; congruence.
Qed.

Lemma wp_bind_fallback_docs {B} (r : QueryResponse number)
    (k : list Doc -> M B) w Q :
  Forall (fun m => is_Some (match_metadata m)) (matches r) ->
  wp (k (fallback_docs r)) w Q ->
  wp (bind (array_map doc_of_match (matches r)) k) w Q.
Proof.
  intros Hms. unfold wp, bind at 1.
  destruct (array_map_doc_of_match (matches r) w) as [[_ ->]|[Hno _]].
  - exact id.
  - destruct (Hno Hms).
Qed.

Lemma wp_bind_array_map_doc_of_match {B} (ms : list (ScoredRecord number))
    (k : list Doc -> M B) w Q :
  (forall docs, wp (k docs) w Q) ->
  (forall e, Q (Throw e, w)) ->
  wp (bind (array_map doc_of_match ms) k) w Q.
Proof.
  intros Hdocs Hthrow. unfold wp, bind at 1.
  destruct (array_map_doc_of_match ms w) as [[_ ->]|[_ [e ->]]].
  - apply Hdocs.
  - apply Hthrow.
Qed.

Lemma array_map_doc_of_match_throws (ms : list (ScoredRecord number)) (w : World) :
  ~ Forall (fun m => is_Some (match_metadata m)) ms ->
  array_map doc_of_match ms w = (Throw undefined_pageContent, w).
Proof.
  induction ms as [|m ms IH]; intros Hms.
  - destruct Hms. constructor.
  - rewrite array_map_cons, doc_of_match_run.
    destruct (match_metadata m) as [md|] eqn:Hmd; [|reflexivity].
    rewrite IH; [reflexivity|].
    intros Hall. apply Hms. constructor; [|exact Hall].
    rewrite Hmd. eexists; reflexivity.
Qed.

Lemma wp_bind_throws {A B} (c : M A) (k : A -> M B) w Q (e : string) w' :
  c w = (Throw e, w') -> Q (Throw e, w') -> wp (bind c k) w Q.
Proof. unfold wp, bind. intros ->. exact id. Qed.

Lemma fallback_texts_without_pageContent (r : QueryResponse number) :
  Forall (fun m => exists md, match_metadata m = Some md /\ md !! "pageContent" = None)
    (matches r) ->
  join (nl +:+ nl) (fallback_texts r) =
  String.concat (nl +:+ nl) (repeat "" (length (matches r))).
Proof.
  unfold join, fallback_texts. intros Hms. f_equal.
  induction Hms as [|m ms (md & Hmd & Hnone) _ IH]; [reflexivity|].
  cbn [map length repeat]. rewrite Hmd, IH. cbn. rewrite Hnone. reflexivity.
Qed.

Lemma fallback_texts_with_pageContent (r : QueryResponse number)
    (texts : list string) :
  Forall2
    (fun m text =>
       exists md, match_metadata m = Some md /\ md !! "pageContent" = Some text)
    (matches r) texts ->
  join (nl +:+ nl) (fallback_texts r) = String.concat (nl +:+ nl) texts.
Proof.
  unfold join, fallback_texts. intros Hms. f_equal.
  induction Hms as [|m text ms texts (md & Hmd & Htext) _ IH]; [reflexivity|].
  cbn [map]. rewrite Hmd, IH. cbn. rewrite Htext. reflexivity.
Qed.

(** The two ways in which the direct query ends when it returns matches:
    every match carries metadata and the generation provider is called, or
    some match carries none and reading its text throws. *)
Lemma questionAnswer_direct_query (req : QuestionRequest) (q name : string)
    (v : list number) (r : QueryResponse number) (w : World) :
  retrieval env X req q name v [] ->
  resolves (fun w => query X w (index_of env name) (fallback_options v)) r ->
  matches r <> [] ->
  let model := getGenerativeModel (genAI env) "gemini-pro" in
  let prompt := prompt_of (join (nl +:+ nl) (fallback_texts r)) q in
  (Forall (fun m => is_Some (match_metadata m)) (matches r) ->
   calls (trace (snd (questionAnswer env X req w))) =
     calls (trace w) ++ fallback_calls env q name v ++
     [GenerateContent model prompt] /\
   forall answer,
     resolves (fun w => generateContent X w model prompt) answer ->
     fst (questionAnswer env X req w) = res_json [("answer", VStr answer)]) /\
  (~ Forall (fun m => is_Some (match_metadata m)) (matches r) ->
   fst (questionAnswer env X req w) =
     res_status_json 500
       [("error", VStr "Error processing question");
        ("details", VStr undefined_pageContent)] /\
   calls (trace (snd (questionAnswer env X req w))) =
     calls (trace w) ++ fallback_calls env q name v).
Proof.
  intros [Hq Hq' Hi Hi' Hnew Hstats Hemb Hsearch] Hquery Hr model prompt.
  unfold fallback_calls. split; intros Hmd.
  - retrieve Hq Hq' Hi Hi' Hstats.
    cbn [length Nat.eqb]. run.
    apply (wp_bind_fallback_docs _ _ _ _ Hmd). cbv beta.
    rewrite (fallback_docs_nonempty _ Hr), pageContent_fallback_docs.
    fold model. fold prompt. run.
    wp_await_cases; run; cbn [fst snd].
    all: split;
      [ trace_calls; reflexivity
      | intros answer Hanswer; rewrite Hanswer in *; congruence ].
  - retrieve Hq Hq' Hi Hi' Hstats.
    cbn [length Nat.eqb]. run.
    apply (wp_bind_throws _ _ _ _ _ _ (array_map_doc_of_match_throws _ _ Hmd)).
    cbv beta iota. cbn [fst snd].
    split; [reflexivity|]. trace_calls. reflexivity.
Qed.

(** C4 (the code departs from it). When the top-3 similarity search
    finds nothing, the handler queries the index directly for the 10
    nearest records of the question's embedding.  When that query returns
    matches, the texts found under [pageContent] in the matches' metadata
    are the retrieved documents, and the generation provider is called with
    the prompt built from them.  But a match whose metadata keeps its text
    under another key counts as a document with an empty text, and a match
    without metadata makes the request fail with 500: in neither case are
    the chunk texts of the matches used. *)
Theorem questionAnswer_fallback (req : QuestionRequest) (q name : string)
    (v : list number) (r : QueryResponse number) (w : World) :
  retrieval env X req q name v [] ->
  resolves (fun w => query X w (index_of env name) (fallback_options v)) r ->
  matches r <> [] ->
  let model := getGenerativeModel (genAI env) "gemini-pro" in
  (exists rest,
     calls (trace (snd (questionAnswer env X req w))) =
       calls (trace w) ++
       [ NewEmbeddings (embeddings_fields env);
         DescribeIndexStats (index_of env name);
         EmbedQuery (embeddings_fields env) q;
         SimilaritySearch (store_of env name) q 3;
         IndexQuery (index_of env name)
           {| vector := v; topK := 10; includeMetadata := true;
              includeValues := true |} ] ++ rest) /\
  (forall texts,
     Forall2
       (fun m text =>
          exists md, match_metadata m = Some md /\ md !! "pageContent" = Some text)
       (matches r) texts ->
     let prompt := prompt_of (String.concat (nl +:+ nl) texts) q in
     calls (trace (snd (questionAnswer env X req w))) =
       calls (trace w) ++ fallback_calls env q name v ++
       [GenerateContent model prompt] /\
     forall answer,
       resolves (fun w => generateContent X w model prompt) answer ->
       fst (questionAnswer env X req w) = res_json [("answer", VStr answer)]) /\
  (Forall (fun m => is_Some (match_metadata m)) (matches r) ->
   let prompt := prompt_of (join (nl +:+ nl) (fallback_texts r)) q in
   calls (trace (snd (questionAnswer env X req w))) =
     calls (trace w) ++ fallback_calls env q name v ++
     [GenerateContent model prompt] /\
   forall answer,
     resolves (fun w => generateContent X w model prompt) answer ->
     fst (questionAnswer env X req w) = res_json [("answer", VStr answer)]) /\
  (Forall
     (fun m => exists md, match_metadata m = Some md /\ md !! "pageContent" = None)
     (matches r) ->
   calls (trace (snd (questionAnswer env X req w))) =
     calls (trace w) ++ fallback_calls env q name v ++
     [GenerateContent model
        (prompt_of (String.concat (nl +:+ nl) (repeat "" (length (matches r)))) q)]) /\
  (~ Forall (fun m => is_Some (match_metadata m)) (matches r) ->
   fst (questionAnswer env X req w) =
     res_status_json 500
       [("error", VStr "Error processing question");
        ("details", VStr undefined_pageContent)] /\
   calls (trace (snd (questionAnswer env X req w))) =
     calls (trace w) ++ fallback_calls env q name v).
Proof.
  intros Hretrieval Hquery Hr model.
  destruct (questionAnswer_direct_query req q name v r w Hretrieval Hquery Hr)
    as [Hsome Hnone].
  split; [|split; [|split; [exact Hsome|split; [|exact Hnone]]]].
  - change
      [ NewEmbeddings (embeddings_fields env);
        DescribeIndexStats (index_of env name);
        EmbedQuery (embeddings_fields env) q;
        SimilaritySearch (store_of env name) q 3;
        IndexQuery (index_of env name)
          {| vector := v; topK := 10; includeMetadata := true;
             includeValues := true |} ]
      with (fallback_calls env q name v).
    destruct (decide (Forall (fun m => is_Some (match_metadata m)) (matches r)))
      as [Hmd|Hmd].
    + destruct (Hsome Hmd) as [-> _]. eexists. reflexivity.
    + destruct (Hnone Hmd) as [_ ->]. exists []. rewrite app_nil_r. reflexivity.
  - intros texts Htexts.
    rewrite <- (fallback_texts_with_pageContent r texts Htexts).
    apply Hsome. eapply Forall2_Forall_l; [exact Htexts|].
    apply Forall_forall. intros text _ m (md & -> & _). eexists; reflexivity.
  - intros Hms.
    rewrite <- (fallback_texts_without_pageContent r Hms).
    apply Hsome. eapply Forall_impl; [exact Hms|].
    intros m (md & -> & _). eexists; reflexivity.
Qed.

(** C3 (the code departs from it). The primary search runs in the fixed
    namespace, but whenever it finds nothing the direct query that follows
    is made on an index handle that addresses no namespace: the store
    operations of that request are not all scoped to the fixed
    namespace. *)
Theorem questionAnswer_fallback_leaves_namespace (req : QuestionRequest)
    (q name : string) (v : list number) (w : World) :
  retrieval env X req q name v [] ->
  (exists rest,
     calls (trace (snd (questionAnswer env X req w))) =
       calls (trace w) ++ fallback_calls env q name v ++ rest) /\
  namespace_of (SimilaritySearch (store_of env name) q 3) = Some (Some namespace) /\
  namespace_of (IndexQuery (index_of env name) (fallback_options v)) = Some None /\
  ~ scoped_to namespace (trace (snd (questionAnswer env X req w))).
Proof.
  intros [Hq Hq' Hi Hi' Hnew Hstats Hemb Hsearch].
  assert (Hcalls : exists rest,
     calls (trace (snd (questionAnswer env X req w))) =
       calls (trace w) ++ fallback_calls env q name v ++ rest).
  { unfold fallback_calls.
    retrieve Hq Hq' Hi Hi' Hstats.
    cbn [length Nat.eqb]. run.
    wp_await_cases; run.
    - apply wp_bind_array_map_doc_of_match; cbv beta.
      + intros [|doc docs]; cbn [length Nat.eqb]; run.
        * cbn [fst snd]. eexists. trace_calls. reflexivity.
        * wp_await_cases; run; cbn [fst snd]; eexists; trace_calls;
            reflexivity.
      + intros e. cbn [fst snd]. eexists. trace_calls. reflexivity.
    - cbn [fst snd]. eexists. trace_calls. reflexivity. }
  split; [exact Hcalls|]. split; [reflexivity|]. split; [reflexivity|].
  destruct Hcalls as [rest Hcalls]. intros Hscoped.
  specialize (Hscoped (IndexQuery (index_of env name) (fallback_options v)) None).
  rewrite Hcalls in Hscoped. discriminate Hscoped; [|reflexivity].
  rewrite !in_app_iff. right; left. cbn. tauto.
Qed.

(** ** The ingestion pipeline *)

Lemma loader_of_None (fileType : string) :
  loader_of fileType = None <-> fileType <> pdf /\ fileType <> docx.
Proof.
  unfold loader_of. rewrite <- !String.eqb_neq.
  destruct (String.eqb fileType pdf), (String.eqb fileType docx);
    intuition congruence.
Qed.

Lemma loader_of_Some (fileType : string) (k : LoaderKind) :
  loader_of fileType = Some k ->
  (String.eqb fileType pdf = true /\ k = PDFLoader) \/
  (String.eqb fileType pdf = false /\ String.eqb fileType docx = true /\
   k = DocxLoader).
Proof.
  unfold loader_of.
  destruct (String.eqb fileType pdf), (String.eqb fileType docx);
    intros [= <-]; auto.
Qed.

(** A truthiness test on a value that is not known. *)
Ltac falsy_cases :=
  lazymatch goal with
  | |- wp (bind (if falsy ?v then _ else _) _) _ _ => destruct (falsy v) eqn:?
  end;
  cbv beta iota zeta.

(** The run of [uploadDoc] up to the write of the staged file, and past it
    when a hypothesis says how the write ends. *)
Ltac stage Hf Hdisk :=
  enter; rewrite Hf; cbn [default from_option id];
  run; wp_exists Hdisk; run.

(** A member of an explicit list. *)
Ltac find_call := repeat first [left; reflexivity | right].

(** The facts that hold at the end of every path of [uploadDoc] through
    a request that carries a file. *)
Ltac uploadDoc_leaf :=
  cbn [fst snd];
  split; [reflexivity|];
  split;
    [ trace_calls_to;
      first
        [ exists []; split; [rewrite app_nil_r; reflexivity | left; reflexivity]
        | eexists; split; [reflexivity | right; eexists _, _; reflexivity] ] |];
  split; [trace_calls_to; reflexivity|];
  split;
    [ first
        [ left; reflexivity
        | right; left; reflexivity
        | right; right; do 2 eexists; split;
          [reflexivity | apply trace_record2] ] |];
  split;
    [ trace_fs_calls; eexists; split;
      [reflexivity | first [left; reflexivity | right; reflexivity]] |];
  split;
    [ intros path Hpath; rewrite ?files_record; cbn [files];
      rewrite ?lookup_delete_ne, ?lookup_insert_ne by congruence; reflexivity |];
  split;
    [ intros Hstatus;
      first
        [ exfalso; apply Hstatus; reflexivity
        | rewrite ?files_record; cbn [files]; apply lookup_delete_eq ] |];
  trace_chat_log; eexists; reflexivity.

(** Every path of [uploadDoc] through a request that carries a file,
    whatever the packages and the disk do: the directories, the store, the
    generation provider, the answer, the calls to [fs], the files at other
    paths, the staged file and the log. *)
Lemma uploadDoc_paths (req : UploadRequest) (f : File) (w : World) :
  file req = Some f ->
  dirs (snd (uploadDoc env X req w)) =
    (if on_disk uploadsDir w then dirs w else {[ uploadsDir ]} ∪ dirs w) /\
  (exists stored,
     calls_to DocumentStore (trace (snd (uploadDoc env X req w))) =
       calls_to DocumentStore (trace w) ++ stored /\
     (stored = [] \/
      exists docs name,
        stored =
          [FromDocuments docs (embeddings_fields env) (upsert_config env name)])) /\
  calls_to GenerationProvider (trace (snd (uploadDoc env X req w))) =
    calls_to GenerationProvider (trace w) /\
  (fst (uploadDoc env X req w) =
     res_status_json 400
       [("error", VStr "Invalid file type. Only PDF and DOCX are allowed.")] \/
   fst (uploadDoc env X req w) =
     res_json [("status", VStr "success");
               ("message", VStr "Document processed and stored")] \/
   (exists e t,
      fst (uploadDoc env X req w) =
        res_status_json 500
          [("error", VStr "Error processing document"); ("details", VStr e)] /\
      trace (snd (uploadDoc env X req w)) =
        t ++ [Log Error "Error processing document" (Some e); ConsoleError e])) /\
  (exists rest,
     fs_calls (trace (snd (uploadDoc env X req w))) =
       fs_calls (trace w) ++
       ExistsSync uploadsDir ::
       (if on_disk uploadsDir w then [] else [MkdirSync uploadsDir]) ++
       WriteFileSync (tempFilePath f) (buffer f) :: rest /\
     (rest = [] \/ rest = [UnlinkSync (tempFilePath f)])) /\
  (forall path,
     path <> tempFilePath f ->
     files (snd (uploadDoc env X req w)) !! path = files w !! path) /\
  (status (fst (uploadDoc env X req w)) <> 500 ->
   files (snd (uploadDoc env X req w)) !! tempFilePath f = None) /\
  (exists entries,
     chat_log (trace (snd (uploadDoc env X req w))) =
       chat_log (trace w) ++
       (Info, "Starting document upload process", None) :: entries).
Proof.
  intros Hf.
  destruct (on_disk uploadsDir w) eqn:Hdisk.
  all: destruct (String.eqb (mimetype f) pdf) eqn:Hpdf;
    [|destruct (String.eqb (mimetype f) docx) eqn:Hdocx].
  all: stage Hf Hdisk; wp_write_cases Hok e He; [|uploadDoc_leaf].
  all: rewrite ?Hpdf, ?Hdocx.
  all: repeat first [wp_step | wp_await_cases | falsy_cases].
  all: uploadDoc_leaf.
Qed.

(** The run of [uploadDoc] on a file of an unsupported type. *)
Lemma uploadDoc_unsupported (req : UploadRequest) (f : File) (w : World) :
  file req = Some f ->
  mimetype f <> pdf ->
  mimetype f <> docx ->
  staged f (trace (snd (uploadDoc env X req w))) /\
  calls (trace (snd (uploadDoc env X req w))) = calls (trace w) /\
  (writes X (tempFilePath f) (buffer f) ->
   fst (uploadDoc env X req w) =
     res_status_json 400
       [("error", VStr "Invalid file type. Only PDF and DOCX are allowed.")] /\
   fs_calls (trace (snd (uploadDoc env X req w))) =
     fs_calls (trace w) ++ staging_calls f w ++ [UnlinkSync (tempFilePath f)] /\
   files (snd (uploadDoc env X req w)) !! tempFilePath f = None) /\
  (forall e,
     write_fails X (tempFilePath f) (buffer f) e ->
     fst (uploadDoc env X req w) =
       res_status_json 500
         [("error", VStr "Error processing document"); ("details", VStr e)] /\
     fs_calls (trace (snd (uploadDoc env X req w))) =
       fs_calls (trace w) ++ staging_calls f w /\
     files (snd (uploadDoc env X req w)) !! tempFilePath f =
       files w !! tempFilePath f).
Proof.
  intros Hf Hpdf Hdocx. apply String.eqb_neq in Hpdf, Hdocx.
  unfold staging_calls, staged.
  destruct (on_disk uploadsDir w) eqn:Hdisk.
  all: stage Hf Hdisk; wp_write_cases Hok e0 He0.
  all: try (rewrite Hpdf, Hdocx; run).
  all: cbn [fst snd].
  all: split; [trace_fs_calls; apply in_or_app; right; find_call|].
  all: split; [trace_calls; reflexivity|].
  all: split.
  all: try (intros Hw; rewrite Hw in He0; discriminate He0).
  all: try (intros e He; rewrite He in Hok; discriminate Hok).
  - intros _. split; [reflexivity|]. split; [trace_fs_calls; reflexivity|].
    rewrite ?files_record; cbn [files]. apply lookup_delete_eq.
  - intros e He. rewrite He in He0. injection He0 as <-.
    split; [reflexivity|]. split; [trace_fs_calls; reflexivity|]. reflexivity.
  - intros _. split; [reflexivity|]. split; [trace_fs_calls; reflexivity|].
    rewrite ?files_record; cbn [files]. apply lookup_delete_eq.
  - intros e He. rewrite He in He0. injection He0 as <-.
    split; [reflexivity|]. split; [trace_fs_calls; reflexivity|]. reflexivity.
Qed.

(** C6, as the code has it. A file whose declared MIME type is neither
    PDF nor DOCX never leads to a call into a third-party package, so none
    to the embedding provider and none to the document store.  It is
    answered 400 when the write to the staging path, which comes before the
    test of the type, succeeds, and 500 with the error of the write when
    the disk refuses it. *)
Theorem uploadDoc_rejects_unsupported (req : UploadRequest) (f : File) (w : World) :
  file req = Some f ->
  mimetype f <> pdf ->
  mimetype f <> docx ->
  (calls_to EmbeddingProvider (trace (snd (uploadDoc env X req w))) =
     calls_to EmbeddingProvider (trace w) /\
   calls_to DocumentStore (trace (snd (uploadDoc env X req w))) =
     calls_to DocumentStore (trace w) /\
   calls (trace (snd (uploadDoc env X req w))) = calls (trace w)) /\
  (writes X (tempFilePath f) (buffer f) ->
   fst (uploadDoc env X req w) =
     res_status_json 400
       [("error", VStr "Invalid file type. Only PDF and DOCX are allowed.")]) /\
  (forall e,
     write_fails X (tempFilePath f) (buffer f) e ->
     fst (uploadDoc env X req w) =
       res_status_json 500
         [("error", VStr "Error processing document"); ("details", VStr e)]).
Proof.
  intros Hf Hpdf Hdocx.
  destruct (uploadDoc_unsupported req f w Hf Hpdf Hdocx)
    as (_ & Hcalls & Hok & Hrefused).
  split; [unfold calls_to; rewrite Hcalls; auto|]. split.
  - intros Hw. apply (Hok Hw).
  - intros e He. apply (Hrefused e He).
Qed.


(** Every path of [uploadDoc] through a request whose file is written to
    the staging path: either the request is answered 500 and the staged
    file is left where it was written, or it is answered otherwise and the
    staged file has been unlinked. *)
Lemma uploadDoc_disk (req : UploadRequest) (f : File) (w : World) :
  file req = Some f ->
  writes X (tempFilePath f) (buffer f) ->
  (status (fst (uploadDoc env X req w)) = 500 /\
   fs_calls (trace (snd (uploadDoc env X req w))) =
     fs_calls (trace w) ++ staging_calls f w /\
   files (snd (uploadDoc env X req w)) = <[tempFilePath f := buffer f]> (files w)) \/
  (status (fst (uploadDoc env X req w)) <> 500 /\
   fs_calls (trace (snd (uploadDoc env X req w))) =
     fs_calls (trace w) ++ staging_calls f w ++ [UnlinkSync (tempFilePath f)] /\
   files (snd (uploadDoc env X req w)) = delete (tempFilePath f) (files w)).
Proof.
  intros Hf Hwrite. unfold staging_calls.
  destruct (on_disk uploadsDir w) eqn:Hdisk.
  all: destruct (String.eqb (mimetype f) pdf) eqn:Hpdf;
    [|destruct (String.eqb (mimetype f) docx) eqn:Hdocx].
  all: stage Hf Hdisk; rewrite ?Hpdf, ?Hdocx.
  all: repeat first [wp_step | wp_await_cases | falsy_cases].
  all: cbn [fst snd].
  all: first
    [ left; split; [reflexivity|]; split;
      [ trace_fs_calls; reflexivity
      | rewrite ?files_record; cbn [files]; reflexivity ]
    | right; split; [discriminate|]; split;
      [ trace_fs_calls; reflexivity
      | rewrite ?files_record; cbn [files]; apply delete_insert_eq ] ].
Qed.

(** C1 (the code departs from it). A request whose file is written to
    the staging path and that is answered 500 (a failure while loading,
    chunking, building the embeddings client, reading the index name or
    upserting) returns with the staged file still on disk: the handler
    unlinks it on the success path and on the rejection of the MIME type
    only. *)
Theorem uploadDoc_failure_leaves_staged_file (req : UploadRequest) (f : File)
    (w : World) :
  file req = Some f ->
  writes X (tempFilePath f) (buffer f) ->
  status (fst (uploadDoc env X req w)) = 500 ->
  files (snd (uploadDoc env X req w)) !! tempFilePath f = Some (buffer f) /\
  fs_calls (trace (snd (uploadDoc env X req w))) =
    fs_calls (trace w) ++ staging_calls f w.
Proof.
  intros Hf Hwrite H500.
  destruct (uploadDoc_disk req f w Hf Hwrite) as [(_ & Hfs & Hfiles)|(Hno & _)].
  - rewrite Hfiles. split; [apply lookup_insert_eq | exact Hfs].
  - destruct (Hno H500).
Qed.

Lemma upserted_app (t u : list Event) :
  upserted (t ++ u) = upserted t ++ upserted u.
Proof.
  unfold upserted, calls. rewrite !omap_app. apply concat_app.
Qed.

Lemma upserted_snoc (t : list Event) (e : Event) :
  upserted (t ++ [e]) =
  upserted t ++ (if e is Ext (FromDocuments docs _ _) then docs else []).
Proof.
  rewrite upserted_app. f_equal.
  destruct e as [| | | |[]]; try reflexivity.
  unfold upserted, calls; cbn. apply app_nil_r.
Qed.

(** An event of the run, looked up from the end of the trace. *)
Ltac find_event :=
  repeat first
    [ (apply in_or_app; right; left; reflexivity)
    | (apply in_or_app; left) ].

(** The run of [uploadDoc] on a supported file up to the construction of
    the embeddings client. *)
Ltac chunk Hf Hk Hdisk :=
  destruct (loader_of_Some _ _ Hk) as [[Hpdf ->]|(Hpdf & Hdocx & ->)];
  stage Hf Hdisk; rewrite ?Hpdf, ?Hdocx; run.

(** C2, as the code has it. A successful ingestion is answered 200 with
    a status and a message; the answer carries no chunk count.  The chunks
    that the splitter produced are what is handed to the store, and their
    number is written to the log only. *)
Theorem uploadDoc_success (req : UploadRequest) (f : File) (k : LoaderKind)
    (name : string) (rawDocs docs : list Doc) (w : World) :
  ingestion env X req f k name rawDocs docs ->
  fst (uploadDoc env X req w) =
    res_json [("status", VStr "success");
              ("message", VStr "Document processed and stored")] /\
  property "chunkCount" (body (fst (uploadDoc env X req w))) = None /\
  upserted (trace (snd (uploadDoc env X req w))) = upserted (trace w) ++ docs /\
  In (Log Info ("Document split into " +:+ pretty (length docs) +:+ " chunks") None)
    (trace (snd (uploadDoc env X req w))).
Proof.
  intros [[Hf Hk Hwrite Hload Hsplit Hnew] Hi Hi' Hupsert].
  unfold textSplitter in Hsplit.
  destruct (on_disk uploadsDir w) eqn:Hdisk.
  all: chunk Hf Hk Hdisk.
  all: rewrite Hi, (falsy_false _ Hi'); cbn [default from_option id]; run.
  all: cbn [fst snd].
  all: split; [reflexivity|]. all: split; [reflexivity|]. all: split.
  all: unfold_trace.
  all: try (rewrite !upserted_snoc; cbn [app]; rewrite ?app_nil_r; reflexivity).
  all: find_event.
Qed.


(** C10. The staging path is the uploads directory joined with the
    original name of the file, whatever its content and declared type: two
    uploads under one name are staged at one path, the second request
    writes its own bytes there, and whatever an earlier request had staged
    at that path does not survive the write. *)
Theorem staging_path_is_by_name (req : UploadRequest) (f1 f2 : File) (w : World) :
  originalname f1 = originalname f2 ->
  file req = Some f2 ->
  tempFilePath f1 = path_join (path_join __dirname "../uploads") (originalname f1) /\
  tempFilePath f2 = tempFilePath f1 /\
  (exists rest,
     fs_calls (trace (snd (uploadDoc env X req w))) =
       fs_calls (trace w) ++
       ExistsSync uploadsDir ::
       (if on_disk uploadsDir w then [] else [MkdirSync uploadsDir]) ++
       WriteFileSync (tempFilePath f1) (buffer f2) :: rest) /\
  (writes X (tempFilePath f2) (buffer f2) ->
   files (snd (uploadDoc env X req w)) !! tempFilePath f1 = Some (buffer f2) \/
   files (snd (uploadDoc env X req w)) !! tempFilePath f1 = None).
Proof.
  intros Hname Hf.
  assert (Hpath : tempFilePath f2 = tempFilePath f1).
  { unfold tempFilePath. rewrite Hname. reflexivity. }
  split; [reflexivity|]. split; [exact Hpath|]. rewrite <- Hpath. split.
  - destruct (uploadDoc_paths req f2 w Hf)
      as (_ & _ & _ & _ & (rest & Hfs & _) & _).
    exists rest. exact Hfs.
  - intros Hwrite.
    destruct (uploadDoc_disk req f2 w Hf Hwrite) as [(_ & _ & ->)|(_ & _ & ->)].
    + left. apply lookup_insert_eq.
    + right. apply lookup_delete_eq.
Qed.

(** ** Further properties of the query pipeline *)

(** The length test of lines 79 and 95 on a list that is not known. *)
Ltac length_cases :=
  lazymatch goal with
  | |- wp (bind (if Nat.eqb (length ?l) 0 then _ else _) _) _ _ =>
      destruct l; cbn [length Nat.eqb]
  end;
  cbv beta iota zeta.

(** The facts that hold at the end of every path of [questionAnswer]. *)
Ltac questionAnswer_leaf :=
  cbn [fst snd];
  split; [reflexivity|];
  split; [reflexivity|];
  split; [trace_fs_calls; reflexivity|];
  split;
    [ unfold_trace; rewrite !upserted_snoc; cbn [app];
      rewrite ?app_nil_r; reflexivity |];
  split;
    [ trace_calls_to;
      first
        [ exists []; split; [rewrite app_nil_r; reflexivity | cbn; lia]
        | eexists; split; [reflexivity | cbn; lia] ] |];
  first
    [ left; reflexivity
    | right; left; eexists; reflexivity
    | right; right; do 2 eexists; split;
      [reflexivity | apply trace_record2] ].

(** Every path of [questionAnswer]: what it leaves alone and how it
    answers. *)
Lemma questionAnswer_paths (req : QuestionRequest) (w : World) :
  files (snd (questionAnswer env X req w)) = files w /\
  dirs (snd (questionAnswer env X req w)) = dirs w /\
  fs_calls (trace (snd (questionAnswer env X req w))) = fs_calls (trace w) /\
  upserted (trace (snd (questionAnswer env X req w))) = upserted (trace w) /\
  (exists generated,
     calls_to GenerationProvider (trace (snd (questionAnswer env X req w))) =
       calls_to GenerationProvider (trace w) ++ generated /\
     length generated <= 1) /\
  (fst (questionAnswer env X req w) =
     res_status_json 400 [("error", VStr "No question provided")] \/
   (exists answer,
      fst (questionAnswer env X req w) = res_json [("answer", VStr answer)]) \/
   (exists e t,
      fst (questionAnswer env X req w) =
        res_status_json 500
          [("error", VStr "Error processing question"); ("details", VStr e)] /\
      trace (snd (questionAnswer env X req w)) =
        t ++ [Log Error "Error processing question" (Some e); ConsoleError e])).
Proof.
  enter. run.
  destruct (falsy (question req)); run; [questionAnswer_leaf|].
  wp_await_cases; [|questionAnswer_leaf]. run.
  falsy_cases; run; [questionAnswer_leaf|].
  wp_await_cases; [|questionAnswer_leaf]. run.
  wp_await_cases; [|questionAnswer_leaf]. run.
  wp_await_cases; [|questionAnswer_leaf]. run.
  length_cases; run.
  - wp_await_cases; [|questionAnswer_leaf]. run.
    apply wp_bind_array_map_doc_of_match; cbv beta;
      [|intros e; questionAnswer_leaf].
    intros docs. length_cases; run; [questionAnswer_leaf|].
    wp_await_cases; run; questionAnswer_leaf.
  - cbn [length Nat.eqb]. run. wp_await_cases; run; questionAnswer_leaf.
Qed.

(** X1. The query pipeline makes no call to [fs] and never writes to
    the store, whatever the request and whatever the packages answer. *)
Theorem questionAnswer_reads_only (req : QuestionRequest) (w : World) :
  fs_calls (trace (snd (questionAnswer env X req w))) = fs_calls (trace w) /\
  upserted (trace (snd (questionAnswer env X req w))) = upserted (trace w).
Proof.
  destruct (questionAnswer_paths req w) as (_ & _ & Hfs & Hup & _).
  auto.
Qed.

(** X2. The answers of the query pipeline: 400 for a missing question, 200
    with an [answer], or 500 with the message of the error that was caught;
    a 500 is always written to the log and to the console, with the same
    message, as the last two effects of the request. *)
Theorem questionAnswer_answers (req : QuestionRequest) (w : World) :
  fst (questionAnswer env X req w) =
    res_status_json 400 [("error", VStr "No question provided")] \/
  (exists answer,
     fst (questionAnswer env X req w) = res_json [("answer", VStr answer)]) \/
  (exists e t,
     fst (questionAnswer env X req w) =
       res_status_json 500
         [("error", VStr "Error processing question"); ("details", VStr e)] /\
     trace (snd (questionAnswer env X req w)) =
       t ++ [Log Error "Error processing question" (Some e); ConsoleError e]).
Proof.
  destruct (questionAnswer_paths req w) as (_ & _ & _ & _ & _ & Hanswer).
  exact Hanswer.
Qed.

(** X3. No retry: one request calls the generation provider at most
    once. *)
Theorem questionAnswer_generates_at_most_once (req : QuestionRequest) (w : World) :
  exists generated,
    calls_to GenerationProvider (trace (snd (questionAnswer env X req w))) =
      calls_to GenerationProvider (trace w) ++ generated /\
    length generated <= 1.
Proof.
  destruct (questionAnswer_paths req w) as (_ & _ & _ & _ & Hgen & _).
  exact Hgen.
Qed.

(** X4. When the top-3 search finds documents, no direct query is made:
    the generation provider is called once, with the prompt built from the
    documents found, in the order found, and its text is the answer as it
    is. *)
Theorem questionAnswer_primary_hit (req : QuestionRequest) (q name : string)
    (v : list number) (found : list Doc) (w : World) :
  retrieval env X req q name v found ->
  found <> [] ->
  let model := getGenerativeModel (genAI env) "gemini-pro" in
  let prompt := prompt_of (join (nl +:+ nl) (map pageContent found)) q in
  calls (trace (snd (questionAnswer env X req w))) =
    calls (trace w) ++ primary_calls env q name ++
    [GenerateContent model prompt] /\
  forall answer,
    resolves (fun w => generateContent X w model prompt) answer ->
    fst (questionAnswer env X req w) = res_json [("answer", VStr answer)].
Proof.
  intros [Hq Hq' Hi Hi' Hnew Hstats Hemb Hsearch] Hfound model prompt.
  destruct found as [|doc found]; [congruence|].
  retrieve Hq Hq' Hi Hi' Hstats.
  cbn [length Nat.eqb]. run. cbn [length Nat.eqb]. run.
  fold model. fold prompt.
  wp_await_cases; run; cbn [fst snd].
  all: split;
    [ trace_calls; reflexivity
    | intros answer Hanswer; rewrite Hanswer in *; congruence ].
Qed.

(** X5. A failure of the generation provider is not retried and not
    hidden, on whichever route the documents were retrieved (the top-3
    search, or the direct query when that search finds nothing): the
    request is answered 500 with the provider's message after the one
    call. *)
Theorem questionAnswer_generation_failure (req : QuestionRequest) (q name : string)
    (v : list number) (found : list Doc) (r : QueryResponse number)
    (e : string) (w : World) :
  retrieval env X req q name v found ->
  (found = [] ->
   resolves (fun w => query X w (index_of env name) (fallback_options v)) r /\
   matches r <> [] /\
   Forall (fun m => is_Some (match_metadata m)) (matches r)) ->
  let model := getGenerativeModel (genAI env) "gemini-pro" in
  let prompt := prompt_of (join (nl +:+ nl) (retrieved_texts found r)) q in
  rejects (fun w => generateContent X w model prompt) e ->
  fst (questionAnswer env X req w) =
    res_status_json 500
      [("error", VStr "Error processing question"); ("details", VStr e)] /\
  calls_to GenerationProvider (trace (snd (questionAnswer env X req w))) =
    calls_to GenerationProvider (trace w) ++ [GenerateContent model prompt].
Proof.
  intros [Hq Hq' Hi Hi' Hnew Hstats Hemb Hsearch] Hroute model prompt Hgen.
  destruct found as [|doc found].
  - destruct (Hroute eq_refl) as (Hquery & Hr & Hmd).
    unfold retrieved_texts in prompt.
    retrieve Hq Hq' Hi Hi' Hstats.
    cbn [length Nat.eqb]. run.
    apply (wp_bind_fallback_docs _ _ _ _ Hmd). cbv beta.
    rewrite (fallback_docs_nonempty _ Hr), pageContent_fallback_docs.
    fold model. fold prompt. run. cbn [fst snd].
    split; [reflexivity|]. trace_calls_to. reflexivity.
  - unfold retrieved_texts in prompt.
    retrieve Hq Hq' Hi Hi' Hstats.
    cbn [length Nat.eqb]. run. cbn [length Nat.eqb]. run.
    fold model. fold prompt. run. cbn [fst snd].
    split; [reflexivity|]. trace_calls_to. reflexivity.
Qed.

(** X6. A match of the direct query that carries no metadata makes the
    request fail: reading its text throws, the answer is 500 with the
    message of the [TypeError], and the generation provider is not
    called. *)
Theorem questionAnswer_match_without_metadata (req : QuestionRequest)
    (q name : string) (v : list number) (r : QueryResponse number) (w : World) :
  retrieval env X req q name v [] ->
  resolves (fun w => query X w (index_of env name) (fallback_options v)) r ->
  ~ Forall (fun m => is_Some (match_metadata m)) (matches r) ->
  fst (questionAnswer env X req w) =
    res_status_json 500
      [("error", VStr "Error processing question");
       ("details", VStr undefined_pageContent)] /\
  calls_to GenerationProvider (trace (snd (questionAnswer env X req w))) =
    calls_to GenerationProvider (trace w).
Proof.
  intros [Hq Hq' Hi Hi' Hnew Hstats Hemb Hsearch] Hquery Hmd.
  retrieve Hq Hq' Hi Hi' Hstats.
  cbn [length Nat.eqb]. run.
  apply (wp_bind_throws _ _ _ _ _ _ (array_map_doc_of_match_throws _ _ Hmd)).
  cbv beta iota. cbn [fst snd].
  split; [reflexivity|]. trace_calls_to. reflexivity.
Qed.

(** X7. The direct query does not check that its matches carry a text:
    a match whose metadata has no [pageContent] counts as a document, adds
    the empty string to the context, and the question is still sent to the
    generation provider. *)
Theorem questionAnswer_fallback_without_text (req : QuestionRequest)
    (q name : string) (v : list number) (r : QueryResponse number) (w : World) :
  retrieval env X req q name v [] ->
  resolves (fun w => query X w (index_of env name) (fallback_options v)) r ->
  matches r <> [] ->
  Forall (fun m => exists md, match_metadata m = Some md /\ md !! "pageContent" = None)
    (matches r) ->
  calls_to GenerationProvider (trace (snd (questionAnswer env X req w))) =
    calls_to GenerationProvider (trace w) ++
    [GenerateContent (getGenerativeModel (genAI env) "gemini-pro")
       (prompt_of
          (String.concat (nl +:+ nl) (repeat "" (length (matches r)))) q)].
Proof.
  intros [Hq Hq' Hi Hi' Hnew Hstats Hemb Hsearch] Hquery Hr Hms.
  assert (Hmd : Forall (fun m => is_Some (match_metadata m)) (matches r)).
  { eapply Forall_impl; [exact Hms|].
    intros m (md & -> & _). eexists; reflexivity. }
  rewrite <- (fallback_texts_without_pageContent r Hms).
  retrieve Hq Hq' Hi Hi' Hstats.
  cbn [length Nat.eqb]. run.
  apply (wp_bind_fallback_docs _ _ _ _ Hmd). cbv beta.
  rewrite (fallback_docs_nonempty _ Hr), pageContent_fallback_docs. run.
  wp_await_cases; run; cbn [fst snd]; trace_calls_to; reflexivity.
Qed.

(** ** Further properties of the ingestion pipeline *)

(** X8. A request without a file is answered 400 "No file uploaded";
    nothing is staged and no package is called. *)
Theorem uploadDoc_rejects_missing_file (req : UploadRequest) (w : World) :
  file req = None ->
  fst (uploadDoc env X req w) =
    res_status_json 400 [("error", VStr "No file uploaded")] /\
  files (snd (uploadDoc env X req w)) = files w /\
  dirs (snd (uploadDoc env X req w)) = dirs w /\
  fs_calls (trace (snd (uploadDoc env X req w))) = fs_calls (trace w) /\
  calls (trace (snd (uploadDoc env X req w))) = calls (trace w).
Proof.
  intros Hf. enter. rewrite Hf. run. cbn [fst snd].
  split; [reflexivity|]. split; [reflexivity|]. split; [reflexivity|].
  split; [trace_fs_calls | trace_calls]; reflexivity.
Qed.

(** X9. The answers of the ingestion pipeline to a request that carries
    a file: 400 for an unsupported type, 200 with the fixed success object,
    or 500 with the message of the error that was caught; a 500 is always
    written to the log and to the console, with the same message, as the
    last two effects of the request. *)
Theorem uploadDoc_answers (req : UploadRequest) (f : File) (w : World) :
  file req = Some f ->
  fst (uploadDoc env X req w) =
    res_status_json 400
      [("error", VStr "Invalid file type. Only PDF and DOCX are allowed.")] \/
  fst (uploadDoc env X req w) =
    res_json [("status", VStr "success");
              ("message", VStr "Document processed and stored")] \/
  (exists e t,
     fst (uploadDoc env X req w) =
       res_status_json 500
         [("error", VStr "Error processing document"); ("details", VStr e)] /\
     trace (snd (uploadDoc env X req w)) =
       t ++ [Log Error "Error processing document" (Some e); ConsoleError e]).
Proof.
  intros Hf.
  destruct (uploadDoc_paths req f w Hf) as (_ & _ & _ & Hanswer & _).
  exact Hanswer.
Qed.



(** X12. Every upload grows the log: the entries handed to the logger,
    which its File transport appends to "chat.log", begin with the one of
    line 128.  A successful ingestion logs, in this order, the start, the
    declared type, the original name, the number of chunks, the index name,
    the start of the upsert and its end. *)
Theorem uploadDoc_chat_log (req : UploadRequest) (w : World) :
  (exists entries,
     chat_log (trace (snd (uploadDoc env X req w))) =
       chat_log (trace w) ++
       (Info, "Starting document upload process", None) :: entries) /\
  (forall f k name rawDocs docs,
     ingestion env X req f k name rawDocs docs ->
     chat_log (trace (snd (uploadDoc env X req w))) =
       chat_log (trace w) ++
       [ (Info, "Starting document upload process", None);
         (Info, "File type: " +:+ mimetype f, None);
         (Info, "Processing file: " +:+ originalname f, None);
         (Info, "Document split into " +:+ pretty (length docs) +:+ " chunks", None);
         (Info, "Initializing Pinecone index: " +:+ name, None);
         (Info, "Storing documents in Pinecone", None);
         (Info, "Document processed and stored in Pinecone", None) ]).
Proof.
  split.
  - destruct (file req) as [f|] eqn:Hf.
    + destruct (uploadDoc_paths req f w Hf) as (_ & _ & _ & _ & _ & _ & _ & Hlog).
      exact Hlog.
    + enter. rewrite Hf. run. cbn [fst snd].
      trace_chat_log. eexists. reflexivity.
  - intros f k name rawDocs docs [[Hf Hk Hwrite Hload Hsplit Hnew] Hi Hi' Hupsert].
    unfold textSplitter in Hsplit.
    destruct (on_disk uploadsDir w) eqn:Hdisk.
    all: chunk Hf Hk Hdisk.
    all: rewrite Hi, (falsy_false _ Hi'); cbn [default from_option id]; run.
    all: cbn [fst snd]; trace_chat_log; reflexivity.
Qed.

(** X13. A successful ingestion calls, in this order, the loader picked
    by the declared type on the staged path, the splitter with chunks of
    1000 and an overlap of 200 on what the loader returned, the embeddings
    constructor, and one upsert of the chunks into "euler-namespace"; the
    staged file is then unlinked, and nothing is left at the staging
    path. *)
Theorem uploadDoc_success_calls (req : UploadRequest) (f : File) (k : LoaderKind)
    (name : string) (rawDocs docs : list Doc) (w : World) :
  ingestion env X req f k name rawDocs docs ->
  calls (trace (snd (uploadDoc env X req w))) =
    calls (trace w) ++
    [ LoaderLoad k (tempFilePath f);
      SplitDocuments {| chunkSize := 1000; chunkOverlap := 200 |} rawDocs;
      NewEmbeddings (embeddings_fields env);
      FromDocuments docs (embeddings_fields env)
        {| pineconeIndex := pinecone_Index (pinecone env) name;
           config_namespace := Some "euler-namespace" |} ] /\
  fs_calls (trace (snd (uploadDoc env X req w))) =
    fs_calls (trace w) ++ staging_calls f w ++ [UnlinkSync (tempFilePath f)] /\
  files (snd (uploadDoc env X req w)) !! tempFilePath f = None.
Proof.
  intros [[Hf Hk Hwrite Hload Hsplit Hnew] Hi Hi' Hupsert].
  unfold textSplitter in Hsplit. unfold staging_calls.
  destruct (on_disk uploadsDir w) eqn:Hdisk.
  all: chunk Hf Hk Hdisk.
  all: rewrite Hi, (falsy_false _ Hi'); cbn [default from_option id]; run.
  all: cbn [fst snd].
  all: split; [trace_calls; reflexivity|].
  all: split; [trace_fs_calls; reflexivity|].
  all: rewrite ?files_record; cbn [files]; apply lookup_delete_eq.
Qed.

(** X14. A file that is staged and that the loader then rejects is a
    failed request, not a partial result: the answer is 500 with the
    loader's message, the loader is the only package that was called, and
    nothing is stored. *)
Theorem uploadDoc_load_failure (req : UploadRequest) (f : File) (k : LoaderKind)
    (e : string) (w : World) :
  file req = Some f ->
  loader_of (mimetype f) = Some k ->
  writes X (tempFilePath f) (buffer f) ->
  rejects (fun w => load X w k (tempFilePath f)) e ->
  fst (uploadDoc env X req w) =
    res_status_json 500
      [("error", VStr "Error processing document"); ("details", VStr e)] /\
  calls (trace (snd (uploadDoc env X req w))) =
    calls (trace w) ++ [LoaderLoad k (tempFilePath f)] /\
  upserted (trace (snd (uploadDoc env X req w))) = upserted (trace w).
Proof.
  intros Hf Hk Hwrite Hload.
  destruct (on_disk uploadsDir w) eqn:Hdisk.
  all: chunk Hf Hk Hdisk; cbn [fst snd].
  all: split; [reflexivity|].
  all: split; [trace_calls; reflexivity|].
  all: unfold_trace; rewrite !upserted_snoc; cbn [app]; rewrite ?app_nil_r.
  all: reflexivity.
Qed.

(** X15. A failure of the upsert is not retried: the answer is 500 with
    the store's message after the one call, and what the store got is the
    whole list of chunks in that one call. *)
Theorem uploadDoc_upsert_failure (req : UploadRequest) (f : File) (k : LoaderKind)
    (name : string) (rawDocs docs : list Doc) (e : string) (w : World) :
  chunking env X req f k rawDocs docs ->
  PINECONE_INDEX_NAME env = Some name ->
  name <> "" ->
  rejects
    (fun w => fromDocuments X w docs (embeddings_fields env) (upsert_config env name))
    e ->
  fst (uploadDoc env X req w) =
    res_status_json 500
      [("error", VStr "Error processing document"); ("details", VStr e)] /\
  calls_to DocumentStore (trace (snd (uploadDoc env X req w))) =
    calls_to DocumentStore (trace w) ++
    [FromDocuments docs (embeddings_fields env) (upsert_config env name)].
Proof.
  intros [Hf Hk Hwrite Hload Hsplit Hnew] Hi Hi' Hupsert.
  unfold textSplitter in Hsplit.
  destruct (on_disk uploadsDir w) eqn:Hdisk.
  all: chunk Hf Hk Hdisk.
  all: rewrite Hi, (falsy_false _ Hi'); cbn [default from_option id]; run.
  all: cbn [fst snd].
  all: split; [reflexivity|]; trace_calls_to; reflexivity.
Qed.

(** X18. The index name is read late: when it is missing, an upload of
    a supported file has already been staged, loaded and split, and the
    embeddings client built, before the request fails; the staged file is
    left on disk. *)
Theorem uploadDoc_index_name_read_late (req : UploadRequest) (f : File)
    (k : LoaderKind) (rawDocs docs : list Doc) (w : World) :
  PINECONE_INDEX_NAME env = None \/ PINECONE_INDEX_NAME env = Some "" ->
  chunking env X req f k rawDocs docs ->
  calls (trace (snd (uploadDoc env X req w))) =
    calls (trace w) ++
    [ LoaderLoad k (tempFilePath f);
      SplitDocuments {| chunkSize := 1000; chunkOverlap := 200 |} rawDocs;
      NewEmbeddings (embeddings_fields env) ] /\
  files (snd (uploadDoc env X req w)) !! tempFilePath f = Some (buffer f).
Proof.
  intros Hi [Hf Hk Hwrite Hload Hsplit Hnew]. apply falsy_true in Hi.
  unfold textSplitter in Hsplit.
  destruct (on_disk uploadsDir w) eqn:Hdisk.
  all: chunk Hf Hk Hdisk; rewrite Hi; run; cbn [fst snd].
  all: split; [trace_calls; reflexivity|].
  all: rewrite ?files_record; cbn [files]; apply lookup_insert_eq.
Qed.

(** ** How requests compose *)

(** X16. A staged file left behind by a failed upload stays on disk: no
    later question and no later upload under another path removes or
    changes it. *)
Theorem leaked_file_persists (req : UploadRequest) (f : File) (w : World) :
  file req = Some f ->
  writes X (tempFilePath f) (buffer f) ->
  status (fst (uploadDoc env X req w)) = 500 ->
  (forall question,
     files (snd (questionAnswer env X question (snd (uploadDoc env X req w))))
       !! tempFilePath f = Some (buffer f)) /\
  (forall req' f',
     file req' = Some f' ->
     tempFilePath f' <> tempFilePath f ->
     files (snd (uploadDoc env X req' (snd (uploadDoc env X req w))))
       !! tempFilePath f = Some (buffer f)).
Proof.
  intros Hf Hwrite H500.
  assert (Hleft : files (snd (uploadDoc env X req w)) !! tempFilePath f =
                  Some (buffer f)).
  { destruct (uploadDoc_disk req f w Hf Hwrite) as [(_ & _ & ->)|(Hno & _)].
    - apply lookup_insert_eq.
    - destruct (Hno H500). }
  split.
  - intros question.
    destruct (questionAnswer_paths question (snd (uploadDoc env X req w)))
      as (-> & _).
    exact Hleft.
  - intros req' f' Hf' Hpath.
    destruct (uploadDoc_paths req' f' (snd (uploadDoc env X req w)) Hf')
      as (_ & _ & _ & _ & _ & Hother & _).
    rewrite Hother by congruence. exact Hleft.
Qed.

(** X17. A later upload under the same original name that does not fail
    removes what a failed upload had left at the staging path. *)
Theorem later_upload_removes_leaked_file (req req' : UploadRequest)
    (f f' : File) (w : World) :
  file req = Some f ->
  writes X (tempFilePath f) (buffer f) ->
  file req' = Some f' ->
  originalname f' = originalname f ->
  status (fst (uploadDoc env X req w)) = 500 ->
  status (fst (uploadDoc env X req' (snd (uploadDoc env X req w)))) <> 500 ->
  files (snd (uploadDoc env X req w)) !! tempFilePath f = Some (buffer f) /\
  files (snd (uploadDoc env X req' (snd (uploadDoc env X req w))))
    !! tempFilePath f = None.
Proof.
  intros Hf Hwrite Hf' Hname H500 Hok.
  assert (Hpath : tempFilePath f' = tempFilePath f).
  { unfold tempFilePath. rewrite Hname. reflexivity. }
  split.
  - destruct (uploadDoc_disk req f w Hf Hwrite) as [(_ & _ & ->)|(Hno & _)].
    + apply lookup_insert_eq.
    + destruct (Hno H500).
  - destruct (uploadDoc_paths req' f' (snd (uploadDoc env X req w)) Hf')
      as (_ & _ & _ & _ & _ & _ & Hgone & _).
    rewrite <- Hpath. exact (Hgone Hok).
Qed.

End Properties.

(** ** The theorems at work on the concrete deployment *)

Import Scenario.
#[local] Existing Instance node.

Ltac scenario_retrieval :=
  constructor;
  [ reflexivity | discriminate | reflexivity | discriminate
  | intros ?; reflexivity | intros ?; exists tt; reflexivity
  | intros ?; reflexivity | intros ?; reflexivity ].

Ltac scenario_chunking :=
  constructor;
  [ reflexivity | reflexivity | intros ?; reflexivity | intros ?; reflexivity
  | intros ?; reflexivity | intros ?; reflexivity ].

Lemma questionAnswer_rejects_missing_question_witness :
  fst (questionAnswer env empty_store no_question empty_disk) =
    res_status_json 400 [("error", VStr "No question provided")] /\
  calls (trace (snd (questionAnswer env empty_store no_question empty_disk))) =
    calls (trace empty_disk) /\
  files (snd (questionAnswer env empty_store no_question empty_disk)) =
    files empty_disk.
Proof.
  apply (questionAnswer_rejects_missing_question env empty_store no_question
           empty_disk).
  left. reflexivity.
Defined.

Lemma questionAnswer_no_documents_witness :
  fst (questionAnswer env empty_store (ask euler_question) empty_disk) =
    res_json [("answer", VStr no_documents)] /\
  calls_to GenerationProvider
    (trace (snd (questionAnswer env empty_store (ask euler_question) empty_disk))) =
    calls_to GenerationProvider (trace empty_disk).
Proof.
  apply (questionAnswer_no_documents env empty_store (ask euler_question)
           euler_question "euler" embedding no_match empty_disk).
  - scenario_retrieval.
  - intros ?; reflexivity.
  - reflexivity.
Defined.

(** C4 where the match carries its text under [pageContent]: the text is
    the context of the prompt, and the answer is the generated one. *)
Lemma questionAnswer_fallback_witness :
  calls (trace (snd (questionAnswer env fallback_store (ask euler_question)
                       empty_disk))) =
    calls (trace empty_disk) ++
    fallback_calls env euler_question "euler" embedding ++
    [GenerateContent (getGenerativeModel (genAI env) "gemini-pro")
       (prompt_of (String.concat (nl +:+ nl) ["Euler was born in Basel."])
          euler_question)] /\
  fst (questionAnswer env fallback_store (ask euler_question) empty_disk) =
    res_json [("answer", VStr "An answer.")].
Proof.
  destruct (questionAnswer_fallback env fallback_store (ask euler_question)
              euler_question "euler" embedding one_match empty_disk)
    as (_ & Htexts & _).
  - scenario_retrieval.
  - intros ?; reflexivity.
  - discriminate.
  - destruct (Htexts ["Euler was born in Basel."]) as [Hcalls Hanswer].
    + repeat constructor. eexists. split; reflexivity.
    + split; [exact Hcalls|]. apply Hanswer. intros ?; reflexivity.
Defined.

(** C4 at the failing inputs.  A record that keeps its text under the
    key [text], as the records written through [PineconeStore] do, is
    turned into an empty context; a record without metadata is answered
    500, and the generation provider is not called. *)
Lemma fallback_drops_the_texts :
  calls_to GenerationProvider
    (trace (snd (questionAnswer env untitled_store (ask euler_question)
                   empty_disk))) =
    [GenerateContent (getGenerativeModel (genAI env) "gemini-pro")
       (prompt_of "" euler_question)] /\
  fst (questionAnswer env bare_store (ask euler_question) empty_disk) =
    res_status_json 500
      [("error", VStr "Error processing question");
       ("details",
        VStr "Cannot read properties of undefined (reading 'pageContent')")] /\
  calls_to GenerationProvider
    (trace (snd (questionAnswer env bare_store (ask euler_question) empty_disk))) =
    [].
Proof.
  repeat split; vm_compute; reflexivity.
Qed.

Lemma questionAnswer_fallback_leaves_namespace_witness :
  (exists rest,
     calls (trace (snd (questionAnswer env empty_store (ask euler_question)
                          empty_disk))) =
       calls (trace empty_disk) ++
       fallback_calls env euler_question "euler" embedding ++ rest) /\
  namespace_of (SimilaritySearch (store_of env "euler") euler_question 3) =
    Some (Some namespace) /\
  namespace_of (IndexQuery (index_of env "euler") (fallback_options embedding)) =
    Some None /\
  ~ scoped_to namespace
      (trace (snd (questionAnswer env empty_store (ask euler_question) empty_disk))).
Proof.
  apply (questionAnswer_fallback_leaves_namespace env empty_store
           (ask euler_question) euler_question "euler" embedding empty_disk).
  scenario_retrieval.
Defined.

(** C6, as the spec has it, fails on a plain-text upload under a name of
    260 bytes: the write to the staging path, which comes first, is refused
    by the disk, and the answer is 500, not 400. *)
Lemma long_name_is_answered_500 :
  mimetype long_name_txt <> pdf /\
  mimetype long_name_txt <> docx /\
  String.length (originalname long_name_txt) = 260 /\
  fst (uploadDoc env empty_store (upload long_name_txt) empty_disk) =
    res_status_json 500
      [("error", VStr "Error processing document");
       ("details", VStr (ENAMETOOLONG (tempFilePath long_name_txt)))] /\
  status (fst (uploadDoc env empty_store (upload long_name_txt) empty_disk)) <> 400.
Proof.
  split; [discriminate|]. split; [discriminate|].
  split; [vm_compute; reflexivity|].
  split; [vm_compute; reflexivity|].
  vm_compute. discriminate.
Qed.

Lemma uploadDoc_rejects_unsupported_witness :
  (calls_to EmbeddingProvider
     (trace (snd (uploadDoc env empty_store (upload notes_txt) empty_disk))) =
     calls_to EmbeddingProvider (trace empty_disk) /\
   calls_to DocumentStore
     (trace (snd (uploadDoc env empty_store (upload notes_txt) empty_disk))) =
     calls_to DocumentStore (trace empty_disk) /\
   calls (trace (snd (uploadDoc env empty_store (upload notes_txt) empty_disk))) =
     calls (trace empty_disk)) /\
  fst (uploadDoc env empty_store (upload notes_txt) empty_disk) =
    res_status_json 400
      [("error", VStr "Invalid file type. Only PDF and DOCX are allowed.")] /\
  fst (uploadDoc env empty_store (upload long_name_txt) empty_disk) =
    res_status_json 500
      [("error", VStr "Error processing document");
       ("details", VStr (ENAMETOOLONG (tempFilePath long_name_txt)))].
Proof.
  destruct (uploadDoc_rejects_unsupported env empty_store (upload notes_txt)
              notes_txt empty_disk) as (Hcalls & Hok & _);
    [reflexivity | discriminate | discriminate |].
  destruct (uploadDoc_rejects_unsupported env empty_store (upload long_name_txt)
              long_name_txt empty_disk) as (_ & _ & Hrefused);
    [reflexivity | discriminate | discriminate |].
  split; [exact Hcalls|]. split.
  - apply Hok. intros ?; reflexivity.
  - apply Hrefused. intros ?; reflexivity.
Defined.



Lemma uploadDoc_failure_leaves_staged_file_witness :
  files (snd (uploadDoc env corrupt_file (upload report_pdf) empty_disk))
    !! tempFilePath report_pdf = Some (buffer report_pdf) /\
  fs_calls (trace (snd (uploadDoc env corrupt_file (upload report_pdf) empty_disk))) =
    fs_calls (trace empty_disk) ++ staging_calls report_pdf empty_disk.
Proof.
  apply (uploadDoc_failure_leaves_staged_file env corrupt_file
           (upload report_pdf) report_pdf empty_disk).
  - reflexivity.
  - intros ?; reflexivity.
  - vm_compute. reflexivity.
Defined.

(** C1 at the failing input: a PDF that the loader rejects is answered
    500 and is still on disk, never unlinked, when the handler returns. *)
Lemma corrupt_pdf_stays_on_disk :
  fst (uploadDoc env corrupt_file (upload report_pdf) empty_disk) =
    res_status_json 500
      [("error", VStr "Error processing document");
       ("details", VStr "Invalid PDF structure")] /\
  files (snd (uploadDoc env corrupt_file (upload report_pdf) empty_disk))
    !! "/app/Controllers/../uploads/report.pdf" = Some (buffer report_pdf) /\
  fs_calls (trace (snd (uploadDoc env corrupt_file (upload report_pdf) empty_disk))) =
    [ ExistsSync "/app/Controllers/../uploads";
      MkdirSync "/app/Controllers/../uploads";
      WriteFileSync "/app/Controllers/../uploads/report.pdf" (buffer report_pdf) ].
Proof.
  repeat split; vm_compute; reflexivity.
Qed.

(** C2, as the spec has it, fails on a successful upload: two chunks are
    handed to the store and the answer has no [chunkCount] at all. *)
Lemma success_carries_no_chunkCount :
  fst (uploadDoc env empty_store (upload report_pdf) empty_disk) =
    res_json [("status", VStr "success");
              ("message", VStr "Document processed and stored")] /\
  length (upserted (trace (snd (uploadDoc env empty_store (upload report_pdf)
                                  empty_disk)))) = 2 /\
  ~ carries_chunkCount
      (fst (uploadDoc env empty_store (upload report_pdf) empty_disk))
      (length (upserted (trace (snd (uploadDoc env empty_store (upload report_pdf)
                                       empty_disk))))).
Proof.
  split; [vm_compute; reflexivity|]. split; [vm_compute; reflexivity|].
  unfold carries_chunkCount. vm_compute. discriminate.
Qed.

Lemma uploadDoc_success_witness :
  fst (uploadDoc env empty_store (upload report_pdf) empty_disk) =
    res_json [("status", VStr "success");
              ("message", VStr "Document processed and stored")] /\
  property "chunkCount"
    (body (fst (uploadDoc env empty_store (upload report_pdf) empty_disk))) = None /\
  upserted (trace (snd (uploadDoc env empty_store (upload report_pdf) empty_disk))) =
    upserted (trace empty_disk) ++ [chunk "first half"; chunk "second half"] /\
  In (Log Info
        ("Document split into " +:+
         pretty (length [chunk "first half"; chunk "second half"]) +:+ " chunks")
        None)
    (trace (snd (uploadDoc env empty_store (upload report_pdf) empty_disk))).
Proof.
  apply (uploadDoc_success env empty_store (upload report_pdf) report_pdf
           PDFLoader "euler" [chunk "a page"]
           [chunk "first half"; chunk "second half"] empty_disk).
  constructor.
  - scenario_chunking.
  - reflexivity.
  - discriminate.
  - intros ?; reflexivity.
Defined.



Lemma staging_path_is_by_name_witness :
  tempFilePath report_pdf =
    path_join (path_join __dirname "../uploads") (originalname report_pdf) /\
  tempFilePath report_docx = tempFilePath report_pdf /\
  (exists rest,
     fs_calls (trace (snd (uploadDoc env corrupt_file (upload report_docx)
                             empty_disk))) =
       fs_calls (trace empty_disk) ++
       ExistsSync uploadsDir ::
       (if on_disk uploadsDir empty_disk then [] else [MkdirSync uploadsDir]) ++
       WriteFileSync (tempFilePath report_pdf) (buffer report_docx) :: rest) /\
  (files (snd (uploadDoc env corrupt_file (upload report_docx) empty_disk))
     !! tempFilePath report_pdf = Some (buffer report_docx) \/
   files (snd (uploadDoc env corrupt_file (upload report_docx) empty_disk))
     !! tempFilePath report_pdf = None).
Proof.
  destruct (staging_path_is_by_name env corrupt_file (upload report_docx)
              report_pdf report_docx empty_disk)
    as (Hpath & Hsame & Hfs & Hfiles);
    [reflexivity | reflexivity |].
  split; [exact Hpath|]. split; [exact Hsame|]. split; [exact Hfs|].
  apply Hfiles. intros ?; reflexivity.
Defined.

(** ** The further properties at work on the concrete deployment *)

Lemma questionAnswer_primary_hit_witness :
  calls (trace (snd (questionAnswer env search_hit (ask euler_question) empty_disk))) =
    calls (trace empty_disk) ++ primary_calls env euler_question "euler" ++
    [GenerateContent (getGenerativeModel (genAI env) "gemini-pro")
       (prompt_of (join (nl +:+ nl) (map pageContent found_docs)) euler_question)] /\
  forall answer,
    resolves
      (fun w =>
         generateContent search_hit w
           (getGenerativeModel (genAI env) "gemini-pro")
           (prompt_of (join (nl +:+ nl) (map pageContent found_docs)) euler_question))
      answer ->
    fst (questionAnswer env search_hit (ask euler_question) empty_disk) =
      res_json [("answer", VStr answer)].
Proof.
  apply (questionAnswer_primary_hit env search_hit (ask euler_question)
           euler_question "euler" embedding found_docs empty_disk).
  - scenario_retrieval.
  - discriminate.
Defined.

Lemma questionAnswer_generation_failure_witness :
  (fst (questionAnswer env generation_down (ask euler_question) empty_disk) =
     res_status_json 500
       [("error", VStr "Error processing question");
        ("details", VStr quota_exhausted)] /\
   calls_to GenerationProvider
     (trace (snd (questionAnswer env generation_down (ask euler_question)
                    empty_disk))) =
     calls_to GenerationProvider (trace empty_disk) ++
     [GenerateContent (getGenerativeModel (genAI env) "gemini-pro")
        (prompt_of (join (nl +:+ nl) (map pageContent found_docs)) euler_question)]) /\
  (fst (questionAnswer env fallback_generation_down (ask euler_question)
          empty_disk) =
     res_status_json 500
       [("error", VStr "Error processing question");
        ("details", VStr quota_exhausted)] /\
   calls_to GenerationProvider
     (trace (snd (questionAnswer env fallback_generation_down (ask euler_question)
                    empty_disk))) =
     calls_to GenerationProvider (trace empty_disk) ++
     [GenerateContent (getGenerativeModel (genAI env) "gemini-pro")
        (prompt_of (join (nl +:+ nl) (fallback_texts one_match)) euler_question)]).
Proof.
  split.
  - apply (questionAnswer_generation_failure env generation_down
             (ask euler_question) euler_question "euler" embedding found_docs
             no_match quota_exhausted empty_disk).
    + scenario_retrieval.
    + discriminate.
    + intros ?; reflexivity.
  - apply (questionAnswer_generation_failure env fallback_generation_down
             (ask euler_question) euler_question "euler" embedding []
             one_match quota_exhausted empty_disk).
    + scenario_retrieval.
    + intros _. split; [intros ?; reflexivity|]. split; [discriminate|].
      repeat constructor. eexists; reflexivity.
    + intros ?; reflexivity.
Defined.

Lemma questionAnswer_match_without_metadata_witness :
  fst (questionAnswer env bare_store (ask euler_question) empty_disk) =
    res_status_json 500
      [("error", VStr "Error processing question");
       ("details", VStr undefined_pageContent)] /\
  calls_to GenerationProvider
    (trace (snd (questionAnswer env bare_store (ask euler_question) empty_disk))) =
    calls_to GenerationProvider (trace empty_disk).
Proof.
  apply (questionAnswer_match_without_metadata env bare_store
           (ask euler_question) euler_question "euler" embedding bare_match
           empty_disk).
  - scenario_retrieval.
  - intros ?; reflexivity.
  - intros Hall. inversion Hall as [|? ? [md Hmd] _]. discriminate Hmd.
Defined.

Lemma questionAnswer_fallback_without_text_witness :
  calls_to GenerationProvider
    (trace (snd (questionAnswer env untitled_store (ask euler_question)
                   empty_disk))) =
    calls_to GenerationProvider (trace empty_disk) ++
    [GenerateContent (getGenerativeModel (genAI env) "gemini-pro")
       (prompt_of
          (String.concat (nl +:+ nl) (repeat "" (length (matches untitled_match))))
          euler_question)].
Proof.
  apply (questionAnswer_fallback_without_text env untitled_store
           (ask euler_question) euler_question "euler" embedding untitled_match
           empty_disk).
  - scenario_retrieval.
  - intros ?; reflexivity.
  - discriminate.
  - repeat constructor. eexists. split; reflexivity.
Defined.

Lemma uploadDoc_rejects_missing_file_witness :
  fst (uploadDoc env empty_store no_file empty_disk) =
    res_status_json 400 [("error", VStr "No file uploaded")] /\
  files (snd (uploadDoc env empty_store no_file empty_disk)) = files empty_disk /\
  dirs (snd (uploadDoc env empty_store no_file empty_disk)) = dirs empty_disk /\
  fs_calls (trace (snd (uploadDoc env empty_store no_file empty_disk))) =
    fs_calls (trace empty_disk) /\
  calls (trace (snd (uploadDoc env empty_store no_file empty_disk))) =
    calls (trace empty_disk).
Proof.
  apply (uploadDoc_rejects_missing_file env empty_store no_file empty_disk).
  reflexivity.
Defined.

Lemma uploadDoc_answers_witness :
  fst (uploadDoc env store_down (upload report_pdf) empty_disk) =
    res_status_json 400
      [("error", VStr "Invalid file type. Only PDF and DOCX are allowed.")] \/
  fst (uploadDoc env store_down (upload report_pdf) empty_disk) =
    res_json [("status", VStr "success");
              ("message", VStr "Document processed and stored")] \/
  (exists e t,
     fst (uploadDoc env store_down (upload report_pdf) empty_disk) =
       res_status_json 500
         [("error", VStr "Error processing document"); ("details", VStr e)] /\
     trace (snd (uploadDoc env store_down (upload report_pdf) empty_disk)) =
       t ++ [Log Error "Error processing document" (Some e); ConsoleError e]).
Proof.
  apply (uploadDoc_answers env store_down (upload report_pdf) report_pdf
           empty_disk).
  reflexivity.
Defined.



Lemma uploadDoc_chat_log_witness :
  chat_log (trace (snd (uploadDoc env empty_store (upload report_pdf) empty_disk))) =
    chat_log (trace empty_disk) ++
    [ (Info, "Starting document upload process", None);
      (Info, "File type: " +:+ mimetype report_pdf, None);
      (Info, "Processing file: " +:+ originalname report_pdf, None);
      (Info,
       "Document split into " +:+
       pretty (length [chunk "first half"; chunk "second half"]) +:+ " chunks",
       None);
      (Info, "Initializing Pinecone index: " +:+ "euler", None);
      (Info, "Storing documents in Pinecone", None);
      (Info, "Document processed and stored in Pinecone", None) ].
Proof.
  destruct (uploadDoc_chat_log env empty_store (upload report_pdf) empty_disk)
    as [_ Hlog].
  apply (Hlog report_pdf PDFLoader "euler" [chunk "a page"]
           [chunk "first half"; chunk "second half"]).
  constructor.
  - scenario_chunking.
  - reflexivity.
  - discriminate.
  - intros ?; reflexivity.
Defined.

Lemma uploadDoc_success_calls_witness :
  calls (trace (snd (uploadDoc env empty_store (upload report_docx) empty_disk))) =
    calls (trace empty_disk) ++
    [ LoaderLoad DocxLoader (tempFilePath report_docx);
      SplitDocuments {| chunkSize := 1000; chunkOverlap := 200 |} [chunk "a page"];
      NewEmbeddings (embeddings_fields env);
      FromDocuments [chunk "first half"; chunk "second half"]
        (embeddings_fields env)
        {| pineconeIndex := pinecone_Index (pinecone env) "euler";
           config_namespace := Some "euler-namespace" |} ] /\
  fs_calls (trace (snd (uploadDoc env empty_store (upload report_docx) empty_disk))) =
    fs_calls (trace empty_disk) ++ staging_calls report_docx empty_disk ++
    [UnlinkSync (tempFilePath report_docx)] /\
  files (snd (uploadDoc env empty_store (upload report_docx) empty_disk))
    !! tempFilePath report_docx = None.
Proof.
  apply (uploadDoc_success_calls env empty_store (upload report_docx)
           report_docx DocxLoader "euler" [chunk "a page"]
           [chunk "first half"; chunk "second half"] empty_disk).
  constructor.
  - scenario_chunking.
  - reflexivity.
  - discriminate.
  - intros ?; reflexivity.
Defined.

Lemma uploadDoc_load_failure_witness :
  fst (uploadDoc env corrupt_file (upload report_pdf) empty_disk) =
    res_status_json 500
      [("error", VStr "Error processing document");
       ("details", VStr "Invalid PDF structure")] /\
  calls (trace (snd (uploadDoc env corrupt_file (upload report_pdf) empty_disk))) =
    calls (trace empty_disk) ++ [LoaderLoad PDFLoader (tempFilePath report_pdf)] /\
  upserted (trace (snd (uploadDoc env corrupt_file (upload report_pdf) empty_disk))) =
    upserted (trace empty_disk).
Proof.
  apply (uploadDoc_load_failure env corrupt_file (upload report_pdf) report_pdf
           PDFLoader "Invalid PDF structure" empty_disk).
  - reflexivity.
  - reflexivity.
  - intros ?; reflexivity.
  - intros ?; reflexivity.
Defined.

Lemma uploadDoc_upsert_failure_witness :
  fst (uploadDoc env store_down (upload report_pdf) empty_disk) =
    res_status_json 500
      [("error", VStr "Error processing document");
       ("details", VStr index_not_found)] /\
  calls_to DocumentStore
    (trace (snd (uploadDoc env store_down (upload report_pdf) empty_disk))) =
    calls_to DocumentStore (trace empty_disk) ++
    [FromDocuments [chunk "first half"; chunk "second half"]
       (embeddings_fields env) (upsert_config env "euler")].
Proof.
  apply (uploadDoc_upsert_failure env store_down (upload report_pdf) report_pdf
           PDFLoader "euler" [chunk "a page"]
           [chunk "first half"; chunk "second half"] index_not_found empty_disk).
  - scenario_chunking.
  - reflexivity.
  - discriminate.
  - intros ?; reflexivity.
Defined.

Lemma uploadDoc_index_name_read_late_witness :
  calls (trace (snd (uploadDoc env_without_index empty_store (upload report_pdf)
                       empty_disk))) =
    calls (trace empty_disk) ++
    [ LoaderLoad PDFLoader (tempFilePath report_pdf);
      SplitDocuments {| chunkSize := 1000; chunkOverlap := 200 |} [chunk "a page"];
      NewEmbeddings (embeddings_fields env_without_index) ] /\
  files (snd (uploadDoc env_without_index empty_store (upload report_pdf)
                empty_disk))
    !! tempFilePath report_pdf = Some (buffer report_pdf).
Proof.
  apply (uploadDoc_index_name_read_late env_without_index empty_store
           (upload report_pdf) report_pdf PDFLoader [chunk "a page"]
           [chunk "first half"; chunk "second half"] empty_disk).
  - left. reflexivity.
  - scenario_chunking.
Defined.

Lemma leaked_file_persists_witness :
  (forall question,
     files (snd (questionAnswer env corrupt_file question
                   (snd (uploadDoc env corrupt_file (upload report_pdf) empty_disk))))
       !! tempFilePath report_pdf = Some (buffer report_pdf)) /\
  (forall req' f',
     file req' = Some f' ->
     tempFilePath f' <> tempFilePath report_pdf ->
     files (snd (uploadDoc env corrupt_file req'
                   (snd (uploadDoc env corrupt_file (upload report_pdf) empty_disk))))
       !! tempFilePath report_pdf = Some (buffer report_pdf)).
Proof.
  apply (leaked_file_persists env corrupt_file (upload report_pdf) report_pdf
           empty_disk).
  - reflexivity.
  - intros ?; reflexivity.
  - vm_compute. reflexivity.
Defined.

Lemma later_upload_removes_leaked_file_witness :
  files (snd (uploadDoc env pdf_loader_down (upload report_pdf) empty_disk))
    !! tempFilePath report_pdf = Some (buffer report_pdf) /\
  files (snd (uploadDoc env pdf_loader_down (upload report_docx)
                (snd (uploadDoc env pdf_loader_down (upload report_pdf) empty_disk))))
    !! tempFilePath report_pdf = None.
Proof.
  apply (later_upload_removes_leaked_file env pdf_loader_down
           (upload report_pdf) (upload report_docx) report_pdf report_docx
           empty_disk).
  - reflexivity.
  - intros ?; reflexivity.
  - reflexivity.
  - reflexivity.
  - vm_compute. reflexivity.
  - vm_compute. discriminate.
Defined.
